(** * Hablara helper scripts: structured-output extraction, schema check,
      hallucination gate and accuracy gate

    A shallow embedding of the decision logic of three scripts

      - [scripts/mlx_analyze.py]              (module [MlxAnalyze])
      - [scripts/mlx_transcribe.py]           (module [MlxTranscribe])
      - [scripts/validate-quantized-model.py] (module [ValidateQuantized])

    followed by the properties proved about them.  Model inference, file
    access and the numpy kernels are outside the scripts; their results
    enter the embedding as inputs (records of outcomes) or as an interface
    ([Numpy]).  Python [float] is IEEE binary64 and is embedded as Rocq's
    primitive [float]; a literal such as [0.8] denotes the same nearest
    binary64 value in both languages.  A Python [str] is embedded as
    [string]; one [ascii] stands for one character of the text. *)

From Stdlib Require Import String Ascii List ZArith Bool Arith Lia PrimFloat.
From Stdlib Require Import DecimalString.
Import ListNotations.

Set Warnings "-inexact-float,-register-all".

#[local] Open Scope string_scope.

(** ** Python exceptions raised or caught by the scripts *)

Inductive exn : Type :=
| ValueError (msg : string)
| RuntimeError (msg : string)
| FileNotFoundError (msg : string)
| JSONDecodeError (msg : string).

(** [str(e)] *)
Definition exn_str (e : exn) : string :=
  match e with
  | ValueError m | RuntimeError m | FileNotFoundError m | JSONDecodeError m => m
  end.

(** A computation that either raises or returns. *)
Definition Py (A : Type) : Type := (exn + A)%type.

Definition raise {A : Type} (e : exn) : Py A := inl e.
Definition ret {A : Type} (a : A) : Py A := inr a.

Definition bind {A B : Type} (m : Py A) (k : A -> Py B) : Py B :=
  match m with
  | inl e => inl e
  | inr a => k a
  end.

Notation "x <- m ;; k" := (bind m (fun x => k))
  (at level 61, m at next level, right associativity).

(** [try: m except Exception as e: h e] *)
Definition try_except {A : Type} (m : Py A) (h : exn -> Py A) : Py A :=
  match m with
  | inl e => h e
  | inr a => inr a
  end.

(** ** Values produced by [json.loads] *)

Inductive json : Type :=
| JNull
| JBool (b : bool)
| JInt (n : Z)
| JFloat (f : float)
| JString (s : string)
| JList (l : list json)
| JDict (d : list (string * json)).

(** A Python [dict] with string keys, in insertion order. *)
Definition dict : Type := list (string * json).

(** [key in d] *)
Definition dict_contains (key : string) (d : dict) : bool :=
  existsb (fun kv => String.eqb key (fst kv)) d.

Module MlxAnalyze.

(** *** The brace scan of [analyze_emotion] and [analyze_fallacy]
    (lines 147-167 and 210-230; the two copies are identical) *)

Definition open_brace : ascii := "{"%char.
Definition close_brace : ascii := "}"%char.

(** [c in text] for a one-character string [c] *)
Fixpoint contains_char (c : ascii) (text : string) : bool :=
  match text with
  | EmptyString => false
  | String a rest => Ascii.eqb a c || contains_char c rest
  end.

(** [text.index(c)]; [None] stands for the [ValueError] of a missing [c] *)
Fixpoint str_index (c : ascii) (text : string) : option nat :=
  match text with
  | EmptyString => None
  | String a rest =>
      if Ascii.eqb a c then Some 0
      else option_map S (str_index c rest)
  end.

(** [text[n:]] *)
Fixpoint slice_from (n : nat) (text : string) : string :=
  match n, text with
  | 0, _ => text
  | S n', EmptyString => EmptyString
  | S n', String _ rest => slice_from n' rest
  end.

(** [text[a:b]] for [a <= b] *)
Definition slice (a b : nat) (text : string) : string :=
  substring a (b - a) text.

(** The [for i in range(json_start, len(response_text))] loop.  [rest] is
    [response_text[i:]]; the loop state is [brace_count] and [json_end];
    the result is the value of [json_end] when the loop is left, by
    [break] or by exhaustion. *)
Fixpoint scan_braces (rest : string) (i : nat) (brace_count : Z) (json_end : nat) : nat :=
  match rest with
  | EmptyString => json_end
  | String c rest' =>
      if Ascii.eqb c open_brace then
        scan_braces rest' (S i) (brace_count + 1) json_end
      else if Ascii.eqb c close_brace then
        let brace_count := (brace_count - 1)%Z in
        if (brace_count =? 0)%Z then i + 1
        else scan_braces rest' (S i) brace_count json_end
      else scan_braces rest' (S i) brace_count json_end
  end.

(** The two ways the extraction raises. *)
Inductive extract_error : Type :=
| NoOpeningBrace     (* the [else] branch of [if "{" in response_text] *)
| UnbalancedBraces.  (* [json_end <= json_start] *)

Definition extract_error_exn (e : extract_error) : exn :=
  match e with
  | NoOpeningBrace => ValueError "No JSON found in model response"
  | UnbalancedBraces => ValueError "No complete JSON found in model response"
  end.

(** The half-open range [[json_start, json_end)] *)
Record ExtractedSpan : Type := mkSpan { json_start : nat; json_end : nat }.

Definition extract_first_json_object (response_text : string)
  : extract_error + ExtractedSpan :=
  if contains_char open_brace response_text then
    match str_index open_brace response_text with
    | Some json_start =>
        let brace_count := 0%Z in
        let json_end := json_start in
        let json_end :=
          scan_braces (slice_from json_start response_text) json_start brace_count json_end in
        if (json_end <=? json_start)%nat then inl UnbalancedBraces
        else inr (mkSpan json_start json_end)
    | None => inl NoOpeningBrace
    end
  else inl NoOpeningBrace.

(** [json_str = response_text[json_start:json_end]] *)
Definition json_str (response_text : string) (sp : ExtractedSpan) : string :=
  slice (json_start sp) (json_end sp) response_text.

(** *** Required-field check (lines 170-171 and 233-234) *)

Inductive RecordKind : Type := Emotion | Fallacy.

Definition validate_emotion (result : dict) : Py dict :=
  if negb (dict_contains "primary" result) || negb (dict_contains "confidence" result)
  then raise (ValueError "Invalid emotion JSON: missing required fields")
  else ret result.

Definition validate_fallacy (result : dict) : Py dict :=
  if negb (dict_contains "fallacies" result) || negb (dict_contains "enrichment" result)
  then raise (ValueError "Invalid fallacy JSON: missing required fields")
  else ret result.

Definition validate (kind : RecordKind) (result : dict) : Py dict :=
  match kind with
  | Emotion => validate_emotion result
  | Fallacy => validate_fallacy result
  end.

(** *** From the model's response text to the returned record

    [json.loads] is Python's standard parser.  The text handed to it starts
    with an opening brace, so a successful parse is a [dict]. *)
Section Analyze.

Variable json_loads : string -> string + dict.

Definition extract_and_parse (response_text : string) : Py dict :=
  match extract_first_json_object response_text with
  | inl e => raise (extract_error_exn e)
  | inr sp =>
      match json_loads (json_str response_text sp) with
      | inl msg => raise (JSONDecodeError msg)
      | inr result => ret result
      end
  end.

(** [analyze_emotion] after generation and end-of-text trimming *)
Definition analyze_emotion (response_text : string) : Py dict :=
  try_except
    (result <- extract_and_parse response_text ;;
     validate_emotion result)
    (fun e =>
       match e with
       | JSONDecodeError m =>
           raise (RuntimeError ("Emotion analysis failed: Invalid JSON - " ++ m))
       | _ => raise (RuntimeError ("Emotion analysis failed: " ++ exn_str e))
       end).

(** [analyze_fallacy] after generation and end-of-text trimming *)
Definition analyze_fallacy (response_text : string) : Py dict :=
  try_except
    (result <- extract_and_parse response_text ;;
     validate_fallacy result)
    (fun e => raise (RuntimeError ("Fallacy analysis failed: " ++ exn_str e))).

End Analyze.

End MlxAnalyze.

Module MlxTranscribe.

(** *** What [engine.transcribe] returns

    The script reads the result with [getattr(result, name, default)] and
    [hasattr]; an attribute the result does not carry is [None] here. *)

Record Segment : Type := mkSegment {
  seg_start : option float;
  seg_end : option float;
  seg_text : option string }.

Record STTResult : Type := mkSTTResult {
  text : string;
  no_speech_prob : option float;
  avg_logprob : option float;
  language : option string;
  segments : option (list Segment) }.

(** [getattr(obj, name, default)] *)
Definition getattr {A : Type} (attr : option A) (default : A) : A :=
  match attr with
  | Some v => v
  | None => default
  end.

(** [a > b] on Python floats *)
Definition float_gt (a b : float) : bool := PrimFloat.ltb b a.

(** The condition of line 141; the spec's [should_suppress]. *)
Definition is_hallucination (no_speech_prob avg_logprob : float) : bool :=
  (float_gt no_speech_prob 0.5 && PrimFloat.ltb avg_logprob (-0.8))
  || float_gt no_speech_prob 0.8.

(** [a or b] where [a] may be [None] or a string: the empty string is falsy *)
Definition str_or (a : option string) (b : string) : string :=
  match a with
  | Some s => if String.eqb s "" then b else s
  | None => b
  end.

(** One entry of the [segments] list of the output *)
Record OutSegment : Type := mkOutSegment {
  out_start : float;
  out_end : float;
  out_seg_text : string }.

(** The [output] dict, in the TranscriptionResult format *)
Record Output : Type := mkOutput {
  out_text : string;
  out_language : string;
  out_segments : list OutSegment;
  speech_duration_sec : float;
  total_duration_sec : float }.

(** What the script writes to standard error: a JSON object with a
    ["warning"] key or with an ["error"] key. *)
Inductive stderr_line : Type :=
| HallucinationWarning (no_speech_prob avg_logprob : float)
| DurationWarning (msg : string)
| ErrorLine (msg : string).

(** One run of [main] from the transcription on: what went to standard
    output, what went to standard error, and the exit status. *)
Record Run : Type := mkRun {
  stdout : option Output;
  stderr : list stderr_line;
  exit_code : Z }.

(** [get_audio_duration]: [wave] is the outcome of reading the file and
    dividing frames by rate, [inl] when that raised. *)
Definition get_audio_duration (wave : string + float) : float * list stderr_line :=
  match wave with
  | inr d => (d, [])
  | inl msg => (0.0%float, [DurationWarning ("Failed to get audio duration: " ++ msg)])
  end.

Definition convert_segment (seg : Segment) : OutSegment :=
  {| out_start := getattr (seg_start seg) 0.0%float;
     out_end := getattr (seg_end seg) 0.0%float;
     out_seg_text := getattr (seg_text seg) "" |}.

(** Lines 135-188: from the transcription result to the printed output. *)
Definition emit (args_language : option string) (wave : string + float)
    (result : STTResult) : Run :=
  let no_speech_prob := getattr (no_speech_prob result) 0.0%float in
  let avg_logprob := getattr (avg_logprob result) 0.0%float in
  let is_hallucination := is_hallucination no_speech_prob avg_logprob in
  let log1 :=
    if is_hallucination then [HallucinationWarning no_speech_prob avg_logprob] else [] in
  let '(audio_duration, log2) := get_audio_duration wave in
  let text := if is_hallucination then "" else text result in
  let output :=
    {| out_text := text;
       out_language := str_or (language result) (str_or args_language "de");
       out_segments := [];
       speech_duration_sec := audio_duration;
       total_duration_sec := audio_duration |} in
  let output :=
    match segments result with
    | Some (seg :: segs) =>
        if negb is_hallucination then
          {| out_text := out_text output;
             out_language := out_language output;
             out_segments := map convert_segment (seg :: segs);
             speech_duration_sec := speech_duration_sec output;
             total_duration_sec := total_duration_sec output |}
        else output
    | _ => output
    end in
  {| stdout := Some output; stderr := log1 ++ log2; exit_code := 0 |}.

(** The [try] block of [main]: [transcribed] is the outcome of loading the
    engine and transcribing, [inl] when that raised. *)
Definition main (args_language : option string) (wave : string + float)
    (transcribed : string + STTResult) : Run :=
  match transcribed with
  | inr result => emit args_language wave result
  | inl msg => {| stdout := None; stderr := [ErrorLine msg]; exit_code := 1 |}
  end.

End MlxTranscribe.

Module ValidateQuantized.

(** The three numpy kernels the script calls, on one-dimensional arrays of
    binary64 numbers. *)
Class Numpy : Type := {
  np_mean : list float -> float;
  np_linalg_norm : list float -> float;
  np_dot : list float -> list float -> float }.

Definition MODEL_DIR : string :=
  "public/models/onnx-models/paraphrase-multilingual-MiniLM-L12-v2-onnx".
Definition FP32_MODEL : string := MODEL_DIR ++ "/model_fp32_backup.onnx".
Definition INT8_MODEL : string := MODEL_DIR ++ "/model_quantized.onnx".

Definition SIMILARITY_THRESHOLD : float := 0.98%float.
Definition TEXT_COLUMN_WIDTH : nat := 50.

(** [a >= b] on Python floats *)
Definition float_ge (a b : float) : bool := PrimFloat.leb b a.

(** The test corpus.  The u-umlaut of the fourth sentence is the
    character with code 252. *)
Definition TEST_SENTENCES : list string :=
  [ "Was ist Stress?";
    "Gewaltfreie Kommunikation nach Rosenberg";
    "Kognitive Verzerrungen erkennen";
    "Ich bin w" ++ String "252"%char "tend und frustriert.";
    "Das ist ein Strohmann-Argument.";
    "Emotionen verstehen und regulieren";
    "Vier-Seiten-Modell von Schulz von Thun";
    "How does emotion detection work?" ].

Section WithNumpy.

Context {numpy : Numpy}.

Definition zero_magnitude_message : string :=
  "Cannot compute similarity for zero-magnitude vectors".

(** [str(a.shape)] of a one-dimensional array *)
Definition shape_str (a : list float) : string :=
  "(" ++ NilZero.string_of_uint (Nat.to_uint (List.length a)) ++ ",)".

Definition cosine_similarity (a b : list float) : Py float :=
  if negb (List.length a =? List.length b)%nat then
    raise (ValueError
             ("Vector dimension mismatch: " ++ shape_str a ++ " vs " ++ shape_str b))
  else
    let norm_a := np_linalg_norm a in
    let norm_b := np_linalg_norm b in
    if PrimFloat.eqb norm_a 0 || PrimFloat.eqb norm_b 0 then
      raise (ValueError zero_magnitude_message)
    else ret (np_dot a b / (norm_a * norm_b))%float.

(** What the script finds when it runs: whether the two model files exist,
    whether tokenizer and sessions load ([Some msg] when loading raised),
    and what [embed] gives for a text with each session. *)
Record Env : Type := mkEnv {
  fp32_exists : bool;
  int8_exists : bool;
  tokenizer_load : option string;
  fp32_load : option string;
  int8_load : option string;
  embed_fp32 : string -> Py (list float);
  embed_int8 : string -> Py (list float) }.

(** A line of the per-sentence table printed by [validate_models]. *)
Inductive report_line : Type :=
| SimilarityRow (short : string) (sim : float) (ok : bool)
| FailedRow (text30 : string) (msg : string).

Definition shorten (text : string) : string :=
  if (TEXT_COLUMN_WIDTH <? String.length text)%nat
  then substring 0 (TEXT_COLUMN_WIDTH - 3) text ++ "..."
  else text.

(** The body of the [try] inside the loop, up to [similarities.append] *)
Definition compare_one (env : Env) (text : string) : Py float :=
  fp32_emb <- embed_fp32 env text ;;
  int8_emb <- embed_int8 env text ;;
  cosine_similarity fp32_emb int8_emb.

(** The loop over the sentences: the [similarities] list and the printed
    lines, both in corpus order. *)
Fixpoint compare_sentences (env : Env) (sentences : list string)
  : list float * list report_line :=
  match sentences with
  | [] => ([], [])
  | text :: rest =>
      let '(similarities, rows) := compare_sentences env rest in
      match compare_one env text with
      | inr sim =>
          (sim :: similarities,
           SimilarityRow (shorten text) sim (float_ge sim SIMILARITY_THRESHOLD) :: rows)
      | inl e =>
          (similarities, FailedRow (substring 0 30 text) (exn_str e) :: rows)
      end
  end.

(** [min(xs)] and [max(xs)] of a non-empty list, as Python folds them *)
Definition py_min (x : float) (xs : list float) : float :=
  fold_left (fun m y => if PrimFloat.ltb y m then y else m) xs x.
Definition py_max (x : float) (xs : list float) : float :=
  fold_left (fun m y => if PrimFloat.ltb m y then y else m) xs x.

Definition validate_models_on (env : Env) (sentences : list string)
  : list report_line * Py (float * float * float) :=
  if negb (fp32_exists env) then
    ([], raise (FileNotFoundError ("FP32 model not found: " ++ FP32_MODEL)))
  else if negb (int8_exists env) then
    ([], raise (FileNotFoundError ("INT8 model not found: " ++ INT8_MODEL)))
  else
    match tokenizer_load env with
    | Some e => ([], raise (RuntimeError ("Tokenizer load failed: " ++ e)))
    | None =>
    match fp32_load env with
    | Some e => ([], raise (RuntimeError ("FP32 model load failed: " ++ e)))
    | None =>
    match int8_load env with
    | Some e => ([], raise (RuntimeError ("INT8 model load failed: " ++ e)))
    | None =>
        let '(similarities, rows) := compare_sentences env sentences in
        match similarities with
        | [] => (rows, raise (RuntimeError "All embedding comparisons failed"))
        | s :: ss =>
            let avg := np_mean similarities in
            let min_sim := py_min s ss in
            let max_sim := py_max s ss in
            (rows, ret (avg, min_sim, max_sim))
        end
    end end end.

Definition validate_models (env : Env) : list report_line * Py (float * float * float) :=
  validate_models_on env TEST_SENTENCES.

(** [main] for a given corpus: the exit code. *)
Definition main_on (env : Env) (sentences : list string) : Z :=
  match snd (validate_models_on env sentences) with
  | inr (avg, min_sim, max_sim) =>
      if float_ge avg SIMILARITY_THRESHOLD then 0%Z else 1%Z
  | inl (FileNotFoundError _) => 2%Z
  | inl _ => 2%Z
  end.

Definition main (env : Env) : Z := main_on env TEST_SENTENCES.

End WithNumpy.

(** Sequential accumulation, left to right: one way the three kernels can
    be computed.  Used to run the script's logic on concrete vectors. *)
Definition seq_sum (xs : list float) : float :=
  fold_left PrimFloat.add xs 0%float.

Fixpoint seq_dot (a b : list float) : float :=
  match a, b with
  | x :: a', y :: b' => (x * y + seq_dot a' b')%float
  | _, _ => 0%float
  end.

Fixpoint float_of_nat (n : nat) : float :=
  match n with
  | O => 0%float
  | S n' => (float_of_nat n' + 1)%float
  end.

Definition NumpySeq : Numpy := {|
  np_mean := fun xs => (seq_sum xs / float_of_nat (List.length xs))%float;
  np_linalg_norm := fun a => PrimFloat.sqrt (seq_dot a a);
  np_dot := seq_dot |}.

End ValidateQuantized.

(** ** Vocabulary of the specification *)

Module Spec.

Import MlxAnalyze.

(** The double-quote character, and a way to write JSON text legibly:
    [dq] turns every apostrophe of its argument into a double quote. *)
Definition dquote : ascii := "034"%char.
Definition apostrophe : ascii := "039"%char.
Definition backslash : ascii := "092"%char.

Fixpoint dq (s : string) : string :=
  match s with
  | EmptyString => EmptyString
  | String c rest => String (if Ascii.eqb c apostrophe then dquote else c) (dq rest)
  end.

(** Text whose braces are properly nested. *)
Inductive balanced : string -> Prop :=
| balanced_empty : balanced ""
| balanced_other c s :
    c <> open_brace -> c <> close_brace -> balanced s -> balanced (String c s)
| balanced_nest s t :
    balanced s -> balanced t ->
    balanced (String open_brace (s ++ String close_brace t)).

(** Peels the leading characters that are not braces off a goal
    [balanced s] for a concrete [s]. *)
Ltac skip_plain_chars :=
  repeat (apply balanced_other; [discriminate | discriminate | ]).

(** Opening braces minus closing braces. *)
Fixpoint brace_depth (s : string) : Z :=
  match s with
  | EmptyString => 0
  | String c rest =>
      ((if Ascii.eqb c open_brace then 1
        else if Ascii.eqb c close_brace then -1 else 0) + brace_depth rest)%Z
  end.

(** The effect of one character on the count. *)
Definition brace_delta (c : ascii) : Z :=
  if Ascii.eqb c open_brace then 1
  else if Ascii.eqb c close_brace then -1 else 0.

(** [s[:k]] *)
Definition prefix_of (k : nat) (s : string) : string := substring 0 k s.

(** Scanning [tail] from its first character never brings the depth back
    to zero: the end of input is reached with the depth still nonzero. *)
Definition never_closes (tail : string) : Prop :=
  forall k, 1 <= k <= String.length tail -> brace_depth (prefix_of k tail) <> 0%Z.

(** The scan as section 4.1 of the specification words it: the same
    depth count, except that characters inside a quoted string literal
    are skipped, a backslash inside a literal escaping the next
    character.  [Some e] is the index one past the closing brace. *)
Fixpoint scan_quote_aware (rest : string) (i : nat) (depth : Z)
    (in_string escaped : bool) : option nat :=
  match rest with
  | EmptyString => None
  | String c rest' =>
      if in_string then
        if escaped then scan_quote_aware rest' (S i) depth true false
        else if Ascii.eqb c backslash then scan_quote_aware rest' (S i) depth true true
        else if Ascii.eqb c dquote then scan_quote_aware rest' (S i) depth false false
        else scan_quote_aware rest' (S i) depth true false
      else if Ascii.eqb c dquote then scan_quote_aware rest' (S i) depth true false
      else if Ascii.eqb c open_brace then
        scan_quote_aware rest' (S i) (depth + 1) false false
      else if Ascii.eqb c close_brace then
        if (depth - 1 =? 0)%Z then Some (i + 1)
        else scan_quote_aware rest' (S i) (depth - 1) false false
      else scan_quote_aware rest' (S i) depth false false
  end.

Definition extract_quote_aware (text : string) : extract_error + ExtractedSpan :=
  match str_index open_brace text with
  | None => inl NoOpeningBrace
  | Some start =>
      match scan_quote_aware (slice_from start text) start 0 false false with
      | Some e => inr (mkSpan start e)
      | None => inl UnbalancedBraces
      end
  end.

(** The first required key, in the order the specification lists them,
    that a record lacks. *)
Definition required_keys (kind : RecordKind) : list string :=
  match kind with
  | Emotion => ["primary"; "confidence"]
  | Fallacy => ["fallacies"; "enrichment"]
  end.

Definition first_missing (kind : RecordKind) (record : dict) : option string :=
  find (fun key => negb (dict_contains key record)) (required_keys kind).

(** The message of the required-field check, one per kind. *)
Definition missing_fields_message (kind : RecordKind) : string :=
  match kind with
  | Emotion => "Invalid emotion JSON: missing required fields"
  | Fallacy => "Invalid fallacy JSON: missing required fields"
  end.

Import MlxTranscribe.

(** The two signals the gate reads from a transcription result, and its
    decision on them. *)
Definition signals (result : STTResult) : float * float :=
  (getattr (no_speech_prob result) 0.0%float, getattr (avg_logprob result) 0.0%float).

Definition suppressed (result : STTResult) : bool :=
  is_hallucination (fst (signals result)) (snd (signals result)).

(** A line of standard error that reports a failure. *)
Definition is_error_line (l : stderr_line) : bool :=
  match l with
  | ErrorLine _ => true
  | _ => false
  end.

Import ValidateQuantized.

(** Both model files exist, and tokenizer and sessions load. *)
Definition ready (env : Env) : bool :=
  fp32_exists env && int8_exists env &&
  match tokenizer_load env, fp32_load env, int8_load env with
  | None, None, None => true
  | _, _, _ => false
  end.

(** An environment in which everything loads and the full-precision model
    gives the zero vector for one sentence, the vector (3, 4) otherwise. *)
Definition env_zero_for (sentence : string) : Env :=
  {| fp32_exists := true; int8_exists := true;
     tokenizer_load := None; fp32_load := None; int8_load := None;
     embed_fp32 := fun text =>
       if String.eqb text sentence then ret [0.0; 0.0]%float else ret [3.0; 4.0]%float;
     embed_int8 := fun _ => ret [3.0; 4.0]%float |}.

End Spec.

(** ** The rest of [scripts/mlx_analyze.py] *)

Module AnalyzeScript.

Import MlxAnalyze.

(** *** Trimming the response (lines 140-144) *)

Definition EOS : string := "<|endoftext|>".

(** The characters [str.strip()] removes, among the codes below 256:
    tab to carriage return, the four separators 28-31, space, next-line
    and no-break space. *)
Definition is_space (c : ascii) : bool :=
  let n := nat_of_ascii c in
  ((9 <=? n) && (n <=? 13) || (28 <=? n) && (n <=? 32) || (n =? 133) || (n =? 160))%nat.

(** [s.lstrip()] *)
Fixpoint lstrip (s : string) : string :=
  match s with
  | EmptyString => EmptyString
  | String c rest => if is_space c then lstrip rest else s
  end.

(** [s.rstrip()] *)
Fixpoint rstrip (s : string) : string :=
  match s with
  | EmptyString => EmptyString
  | String c rest =>
      match rstrip rest with
      | EmptyString => if is_space c then EmptyString else String c EmptyString
      | kept => String c kept
      end
  end.

(** [s.strip()] *)
Definition strip (s : string) : string := rstrip (lstrip s).

(** [text.find(sub)]: the index of the first occurrence, [None] for -1 *)
Fixpoint str_find (sub text : string) : option nat :=
  if String.prefix sub text then Some 0
  else
    match text with
    | EmptyString => None
    | String _ rest => option_map S (str_find sub rest)
    end.

(** [sub in text] *)
Definition str_in (sub text : string) : bool :=
  match str_find sub text with
  | Some _ => true
  | None => false
  end.

(** [text.split(sep)[0]]: the text before the first [sep], the whole text
    when there is none *)
Definition split_first (sep text : string) : string :=
  match str_find sep text with
  | Some n => substring 0 n text
  | None => text
  end.

(** From [response] to the [response_text] the scan reads. *)
Definition trim_response (response : string) : string :=
  let response_text := strip response in
  if str_in EOS response_text
  then strip (split_first EOS response_text)
  else response_text.

(** *** [get_model_path] (lines 111-117) *)

Definition MODEL_SUBDIRS : list (string * string) :=
  [ ("qwen2.5-7b", "mlx-community/Qwen2.5-7B-Instruct-4bit");
    ("qwen2.5-14b", "mlx-community/Qwen2.5-14B-Instruct-4bit");
    ("qwen2.5-32b", "mlx-community/Qwen2.5-32B-Instruct-4bit") ].

(** [d.get(key)] on a dict of strings *)
Fixpoint dict_get (key : string) (d : list (string * string)) : option string :=
  match d with
  | [] => None
  | (k, v) :: rest => if String.eqb key k then Some v else dict_get key rest
  end.

(** The second argument, [models_dir], is not read by the function. *)
Definition get_model_path (model : string) (models_dir : option string) : Py string :=
  match dict_get model MODEL_SUBDIRS with
  | Some model_id =>
      if String.eqb model_id "" then
        raise (ValueError ("Unknown model: " ++ model
          ++ ". Available: ['qwen2.5-7b', 'qwen2.5-14b', 'qwen2.5-32b']"))
      else ret model_id
  | None =>
      raise (ValueError ("Unknown model: " ++ model
        ++ ". Available: ['qwen2.5-7b', 'qwen2.5-14b', 'qwen2.5-32b']"))
  end.

(** *** The two analyses with what they print, and [main] *)

Inductive Mode : Type := emotion | fallacy.

Definition mode_str (m : Mode) : string :=
  match m with
  | emotion => "emotion"
  | fallacy => "fallacy"
  end.

(** What the script writes to standard error: the usage error of the
    argument parser, the three log lines of [main], the two lines of the
    JSON handler of [analyze_emotion] (the second shows the response), and
    the error object of [main]. *)
Inductive stderr_line : Type :=
| UsageError (model : string)
| LogMode (mode : string)
| LogModel (model_path : string)
| LogTextLength (chars : nat)
| ErrorFailedToParse (msg : string)
| ErrorRawResponse (response : string)
| ErrorJson (error mode model : string).

Record Run : Type := mkRun {
  stdout : option dict;
  stderr : list stderr_line;
  exit_code : Z }.

(** How [load] and [generate] end inside the [try] block: with the
    response, with a [json.JSONDecodeError], or with another exception;
    [msg] is the text of the exception. *)
Inductive Generated : Type :=
| Response (response : string)
| RaisedJSONDecodeError (msg : string)
| RaisedOther (msg : string).

(** The values [--model] accepts: [choices=list(MODEL_SUBDIRS.keys())] *)
Definition model_choices : list string := map fst MODEL_SUBDIRS.

Section WithParser.

Variable json_loads : string -> string + dict.

(** The text of the [UnboundLocalError] Python raises for [response]; it
    depends on the version of the interpreter. *)
Variable unbound_response_message : string.

(** An analysis gives the lines it wrote to standard error and either the
    record or the text of the exception that left the function. *)
Definition Analysis : Type := (list stderr_line * (string + dict))%type.

Definition outcome_of (r : Py dict) : string + dict :=
  match r with
  | inl e => inl (exn_str e)
  | inr result => inr result
  end.

(** [analyze_emotion].  When [load] or [generate] raises a JSON decoding
    error, the handler of lines 175-179 prints its first line and then
    reads [response], which was never assigned: that error is the one
    that leaves the function. *)
Definition analyze_emotion_generated (generated : Generated) : Analysis :=
  match generated with
  | RaisedOther msg => ([], inl ("Emotion analysis failed: " ++ msg))
  | RaisedJSONDecodeError msg => ([ErrorFailedToParse msg], inl unbound_response_message)
  | Response response =>
      let response_text := trim_response response in
      (match extract_and_parse json_loads response_text with
       | inl (JSONDecodeError msg) => [ErrorFailedToParse msg; ErrorRawResponse response]
       | _ => []
       end,
       outcome_of (analyze_emotion json_loads response_text))
  end.

(** [analyze_fallacy]: one handler for every exception. *)
Definition analyze_fallacy_generated (generated : Generated) : Analysis :=
  match generated with
  | RaisedOther msg | RaisedJSONDecodeError msg =>
      ([], inl ("Fallacy analysis failed: " ++ msg))
  | Response response =>
      ([], outcome_of (analyze_fallacy json_loads (trim_response response)))
  end.

(** [main].  [generate] gives the outcome of loading the model at a path
    and generating for the mode's prompt; [print_fails result] is
    [Some msg] when printing the record to standard output raises, with
    text [msg] and before anything is written (an encoding error). *)
Definition main (mode : Mode) (text model : string) (models_dir : option string)
    (generate : string -> Generated) (print_fails : dict -> option string) : Run :=
  if negb (existsb (String.eqb model) model_choices) then
    {| stdout := None; stderr := [UsageError model]; exit_code := 2 |}
  else
    match get_model_path model models_dir with
    | inl e =>
        {| stdout := None;
           stderr := [ErrorJson (exn_str e) (mode_str mode) model];
           exit_code := 1 |}
    | inr model_path =>
        let log :=
          [LogMode (mode_str mode); LogModel model_path;
           LogTextLength (String.length text)] in
        let '(printed, analysis) :=
          match mode with
          | emotion => analyze_emotion_generated (generate model_path)
          | fallacy => analyze_fallacy_generated (generate model_path)
          end in
        let failed (msg : string) :=
          {| stdout := None;
             stderr := (log ++ printed ++ [ErrorJson msg (mode_str mode) model])%list;
             exit_code := 1 |} in
        match analysis with
        | inr result =>
            match print_fails result with
            | None =>
                {| stdout := Some result; stderr := (log ++ printed)%list;
                   exit_code := 0 |}
            | Some msg => failed msg
            end
        | inl msg => failed msg
        end
    end.

End WithParser.

(** [sub] occurs in [text]. *)
Definition occurs (sub text : string) : Prop :=
  exists before after, text = before ++ sub ++ after.

(** The keys a mode requires of the record it prints. *)
Definition mode_keys (m : Mode) : list string :=
  match m with
  | emotion => ["primary"; "confidence"]
  | fallacy => ["fallacies"; "enrichment"]
  end.

End AnalyzeScript.

Module AnalyzeScriptSpec.

Import AnalyzeScript.

(** How the message of a failed analysis starts, per mode. *)
Definition failure_prefix (m : Mode) : string :=
  match m with
  | emotion => "Emotion analysis failed: "
  | fallacy => "Fallacy analysis failed: "
  end.

Definition is_error_json (l : stderr_line) : bool :=
  match l with
  | ErrorJson _ _ _ => true
  | _ => false
  end.

End AnalyzeScriptSpec.

(** ** The rest of [scripts/mlx_transcribe.py] *)

Module TranscribeScript.

Import MlxTranscribe.

(** A [pathlib.Path] as the script builds it. *)
Inductive Path : Type :=
| Given (p : string)                 (* a path from the command line *)
| ExpandUser (env_dir : string)      (* [Path(env_dir).expanduser()] *)
| HomeJoin (name : string)           (* [Path.home() / name] *)
| Join (base : Path) (name : string).  (* [base / name] *)

Definition MODEL_SUBDIRS : list (string * string) :=
  [ ("german-turbo", "whisper-large-v3-turbo-german-f16") ].

(** [get_models_dir]; [env_dir] is the value of [MLX_WHISPER_DIR], [None]
    when the variable is not set. *)
Definition get_models_dir (env_dir : option string) : Path :=
  match env_dir with
  | Some d => if String.eqb d "" then HomeJoin "mlx-whisper" else ExpandUser d
  | None => HomeJoin "mlx-whisper"
  end.

(** [get_model_path]; a [Path] is always truthy, so [models_dir or ...]
    takes [models_dir] whenever it is given. *)
Definition get_model_path (model : string) (models_dir : option string)
    (env_dir : option string) : Py Path :=
  let base_dir :=
    match models_dir with
    | Some d => Given d
    | None => get_models_dir env_dir
    end in
  match AnalyzeScript.dict_get model MODEL_SUBDIRS with
  | Some subdir =>
      if String.eqb subdir "" then raise (ValueError ("Unknown model: " ++ model))
      else ret (Join base_dir subdir)
  | None => raise (ValueError ("Unknown model: " ++ model))
  end.

(** The command line and what the script finds on disk: the positional
    audio file and [--models-dir] become paths ([type=Path]); [path_str]
    is [str] of a path, as the error messages show it. *)
Record Cli : Type := mkCli {
  audio_file : string;
  model : string;
  models_dir : option string;
  env_dir : option string;
  path_exists : Path -> bool;
  path_str : Path -> string }.

(** The values [--model] accepts: [choices=list(MODEL_SUBDIRS.keys())] *)
Definition model_choices : list string := map fst MODEL_SUBDIRS.

(** How [main] gets to its [try] block (lines 73-113): the argument
    parser ends the script with status 2 and a usage error, a failed check
    ends it with status 1 and one error object on standard error, or the
    script goes on with the model path. *)
Inductive Preflight : Type :=
| UsageExit (model : string)
| ErrorExit (msg : string)
| Proceed (model_path : Path).

Definition early_exit_code (p : Preflight) : option Z :=
  match p with
  | UsageExit _ => Some 2%Z
  | ErrorExit _ => Some 1%Z
  | Proceed _ => None
  end.

Definition preflight (cli : Cli) : Preflight :=
  if negb (existsb (String.eqb (model cli)) model_choices) then UsageExit (model cli)
  else if negb (path_exists cli (Given (audio_file cli))) then
    ErrorExit ("Audio file not found: " ++ path_str cli (Given (audio_file cli)))
  else
    match get_model_path (model cli) (models_dir cli) (env_dir cli) with
    | inl e => ErrorExit (exn_str e)
    | inr model_path =>
        if negb (path_exists cli model_path) then
          ErrorExit ("Model not found: " ++ model cli ++ " at " ++ path_str cli model_path)
        else Proceed model_path
    end.

(** The directory the model is looked up in. *)
Definition base_dir (cli : Cli) : Path :=
  match models_dir cli with
  | Some d => Given d
  | None =>
      match env_dir cli with
      | Some d => if String.eqb d "" then HomeJoin "mlx-whisper" else ExpandUser d
      | None => HomeJoin "mlx-whisper"
      end
  end.

(** A line with a ["warning"] key about the audio duration *)
Definition is_duration_warning (l : stderr_line) : bool :=
  match l with
  | DurationWarning _ => true
  | _ => false
  end.

End TranscribeScript.

Module ValidateQuantizedSpec.

Import ValidateQuantized.

(** A row of the printed table that reports a failed comparison. *)
Definition is_failed_row (r : report_line) : bool :=
  match r with
  | FailedRow _ _ => true
  | SimilarityRow _ _ _ => false
  end.

(** The similarity a row shows, if it shows one. *)
Definition row_similarity (r : report_line) : list float :=
  match r with
  | SimilarityRow _ sim _ => [sim]
  | FailedRow _ _ => []
  end.

Definition is_file_not_found (e : exn) : bool :=
  match e with
  | FileNotFoundError _ => true
  | _ => false
  end.

End ValidateQuantizedSpec.

(** ** [scripts/quantize-onnx-model.py] *)

Module QuantizeOnnx.

Definition MODEL_DIR : string :=
  "public/models/onnx-models/paraphrase-multilingual-MiniLM-L12-v2-onnx".
Definition INPUT_MODEL : string := MODEL_DIR ++ "/model.onnx".
Definition OUTPUT_MODEL : string := MODEL_DIR ++ "/model_quantized.onnx".
Definition BACKUP_MODEL : string := MODEL_DIR ++ "/model_fp32_backup.onnx".

(** The files the script sees: for a path that exists, its size in
    megabytes, [os.path.getsize(path) / MB_DIVISOR]. *)
Definition Files : Type := string -> option float.

Definition write (path : string) (size_mb : float) (files : Files) : Files :=
  fun p => if String.eqb p path then Some size_mb else files p.

Definition get_file_size_mb (files : Files) (path : string) : Py float :=
  match files path with
  | None => raise (FileNotFoundError ("File not found: " ++ path))
  | Some size_mb => ret size_mb
  end.

(** What the library calls answer: [Some msg] or [inl msg] when the call
    raised; [quantize_dynamic] otherwise writes an output file of the
    given size. *)
Record Tools : Type := mkTools {
  copy2 : option string;
  check_input : option string;
  quantize_dynamic : string + float;
  check_output : option string }.

(** [a / b] on Python floats.  Python raises a [ZeroDivisionError] for a
    zero divisor; the script wraps it at once, so only its text is kept. *)
Definition float_div (a b : float) : Py float :=
  if PrimFloat.eqb b 0 then raise (RuntimeError "float division by zero")
  else ret (a / b)%float.

(** A [try] block whose handler wraps any exception. *)
Definition wrapping {A : Type} (what : string) (m : Py A) : Py A :=
  try_except m (fun e => raise (RuntimeError (what ++ exn_str e))).

(** [quantize_model]: the files as the steps leave them, and the
    result. *)
Definition quantize_model (files : Files) (tools : Tools)
  : Files * Py (float * float * float) :=
  match files INPUT_MODEL with
  | None => (files, raise (FileNotFoundError ("Input model not found: " ++ INPUT_MODEL)))
  | Some input_size =>
  match copy2 tools with
  | Some e => (files, raise (RuntimeError ("Backup creation failed: " ++ e)))
  | None =>
  let files := write BACKUP_MODEL input_size files in
  match wrapping "Model validation failed: "
          (match check_input tools with
           | Some e => raise (RuntimeError e)
           | None => get_file_size_mb files INPUT_MODEL
           end) with
  | inl e => (files, inl e)
  | inr original_size =>
  match quantize_dynamic tools with
  | inl e => (files, raise (RuntimeError ("Quantization failed: " ++ e)))
  | inr output_size =>
  let files := write OUTPUT_MODEL output_size files in
  match wrapping "Quantized model validation failed: "
          (match check_output tools with
           | Some e => raise (RuntimeError e)
           | None =>
               quantized_size <- get_file_size_mb files OUTPUT_MODEL ;;
               ratio <- float_div quantized_size original_size ;;
               ret (quantized_size, ((1 - ratio) * 100)%float)
           end) with
  | inl e => (files, inl e)
  | inr (quantized_size, reduction) =>
      (files, ret (original_size, quantized_size, reduction))
  end end end end end.

(** [main]: the exit code and whether the hint about the input model was
    printed. *)
Definition main (files : Files) (tools : Tools) : Z * bool :=
  match snd (quantize_model files tools) with
  | inr _ => (0%Z, false)
  | inl (FileNotFoundError _) => (2%Z, true)
  | inl _ => (2%Z, false)
  end.

(** Every step of the script succeeds. *)
Definition all_steps_succeed (files : Files) (tools : Tools) : bool :=
  match files INPUT_MODEL, copy2 tools, check_input tools,
        quantize_dynamic tools, check_output tools with
  | Some input_size, None, None, inr _, None => negb (PrimFloat.eqb input_size 0)
  | _, _, _, _, _ => false
  end.

End QuantizeOnnx.

(** ** [scripts/mlx_server_dev.py]: the [/transcribe] handler *)

Module ServerDev.

Definition ALLOWED_EXTENSIONS : list string := [".wav"; ".mp3"; ".m4a"; ".ogg"].

(** The request as the handler reads it: whether it has an [audio] file,
    the extension [Path(audio.filename or '').suffix.lower()] of that
    file, and the two optional form fields. *)
Record Request : Type := mkRequest {
  has_audio : bool;
  ext : string;
  form_model : option string;
  form_language : option string }.

(** How [subprocess.run] ends: the 30 second timeout expires, the child
    returns, or the call raises something else. *)
Inductive Completed : Type :=
| TimeoutExpired
| Returned (returncode : Z) (stdout stderr : string)
| RunRaised (msg : string).

(** What the handler does to the outside. *)
Inductive effect : Type :=
| SaveUpload (suffix : string)       (* the upload saved to a temporary file *)
| RunTranscribe (argv : list string) (* [subprocess.run] *)
| Unlink.                            (* the temporary file removed *)

Inductive body : Type :=
| ErrorBody (error : string)
| InvalidFileType (ext : string)
| OutputBody (output : json).

(** A response with its status, or an exception that leaves the handler. *)
Inductive handled : Type :=
| Respond (b : body) (status : Z)
| Unhandled (msg : string).

(** [form.get(key, default)] *)
Definition form_get (field : option string) (default : string) : string :=
  match field with
  | Some v => v
  | None => default
  end.

Definition in_set (x : string) (s : list string) : bool :=
  existsb (String.eqb x) s.

Section Handler.

(** The name of the temporary file, the path of [mlx_transcribe.py], the
    outcome of the child for a command line, the parser, and whether the
    temporary file is still there when the [finally] clause looks.
    Saving the upload is taken to succeed. *)
Variable tmp_path : string.
Variable mlx_script : string.
Variable run : list string -> Completed.
Variable json_loads : string -> string + json.
Variable tmp_exists_at_end : bool.

Definition transcribe (request : Request) : list effect * handled :=
  if negb (has_audio request) then
    ([], Respond (ErrorBody "No audio file provided") 400)
  else if negb (in_set (ext request) ALLOWED_EXTENSIONS) then
    ([], Respond (InvalidFileType (ext request)) 400)
  else
    let model := form_get (form_model request) "german-turbo" in
    let language := form_get (form_language request) "de" in
    let argv :=
      ["python3"; mlx_script; tmp_path; "--model"; model; "--language"; language] in
    let result :=
      match run argv with
      | Returned returncode stdout stderr =>
          if negb (returncode =? 0)%Z then Respond (ErrorBody stderr) 500
          else
            match json_loads stdout with
            | inr output => Respond (OutputBody output) 200
            | inl msg => Unhandled msg
            end
      | TimeoutExpired =>
          Respond
            (ErrorBody "Transcription timeout (>30s). File too large or model too slow.")
            504
      | RunRaised msg => Unhandled msg
      end in
    let cleanup := if tmp_exists_at_end then [Unlink] else [] in
    ((SaveUpload (ext request) :: RunTranscribe argv :: cleanup)%list, result).

End Handler.

(** The request passes the two checks of the handler. *)
Definition accepted (request : Request) : bool :=
  has_audio request && in_set (ext request) ALLOWED_EXTENSIONS.

Definition is_run (e : effect) : bool :=
  match e with
  | RunTranscribe _ => true
  | _ => false
  end.

End ServerDev.

(** ** Properties *)

(** *** Strings *)

Section StringFacts.

Import MlxAnalyze.

Lemma string_app_assoc (s t u : string) : (s ++ t) ++ u = s ++ (t ++ u).
Proof.
  induction s as [|c s IH]; simpl; [reflexivity | now rewrite IH].
Qed.

Lemma string_app_length (s t : string) :
  String.length (s ++ t) = String.length s + String.length t.
Proof.
  induction s as [|c s IH]; simpl; [reflexivity | now rewrite IH].
Qed.

Lemma contains_char_app (c : ascii) (s t : string) :
  contains_char c (s ++ t) = contains_char c s || contains_char c t.
Proof.
  induction s as [|a s IH]; simpl; [reflexivity|].
  rewrite IH. now rewrite orb_assoc.
Qed.

Lemma str_index_none (c : ascii) (s : string) :
  str_index c s = None <-> contains_char c s = false.
Proof.
  induction s as [|a s IH]; simpl; [tauto|].
  destruct (Ascii.eqb a c); simpl.
  - split; discriminate.
  - destruct (str_index c s); simpl in *.
    + split; [discriminate|]. intros H. apply IH in H. discriminate.
    + split; [intros _; now apply IH | reflexivity].
Qed.

Lemma str_index_first (c : ascii) (pre rest : string) :
  contains_char c pre = false ->
  str_index c (pre ++ String c rest) = Some (String.length pre).
Proof.
  induction pre as [|a pre IH]; simpl; intros H.
  - now rewrite Ascii.eqb_refl.
  - apply orb_false_iff in H as [Ha Hpre].
    rewrite Ha, (IH Hpre). reflexivity.
Qed.

(** [text.index(c)] splits the text at the first occurrence of [c]. *)
Lemma str_index_split (c : ascii) (s : string) (n : nat) :
  str_index c s = Some n ->
  exists pre rest,
    s = pre ++ String c rest /\ contains_char c pre = false /\ String.length pre = n.
Proof.
  revert n. induction s as [|a s IH]; simpl; intros n H; [discriminate|].
  destruct (Ascii.eqb a c) eqn:E.
  - apply Ascii.eqb_eq in E. subst a. injection H as <-.
    exists "", s. repeat split.
  - destruct (str_index c s) as [m|]; simpl in H; [|discriminate].
    injection H as <-.
    destruct (IH m eq_refl) as (pre & rest & -> & Hpre & Hlen).
    exists (String a pre), rest. simpl. rewrite E, Hpre, Hlen. repeat split.
Qed.

Lemma slice_from_app (pre s : string) :
  slice_from (String.length pre) (pre ++ s) = s.
Proof.
  induction pre as [|a pre IH]; simpl; [now destruct s | exact IH].
Qed.

Lemma substring_app_exact (pre s post : string) :
  substring (String.length pre) (String.length s) (pre ++ s ++ post) = s.
Proof.
  induction pre as [|a pre IH]; simpl; [|exact IH].
  induction s as [|b s IHs]; simpl.
  - now destruct post.
  - now rewrite IHs.
Qed.

End StringFacts.

(** *** The brace scan *)

Module ExtractFacts.

Import MlxAnalyze Spec.

(** Over text with properly nested braces the loop only moves on: once the
    count is positive it is the same after the text as before it. *)
Lemma scan_braces_balanced (s : string) :
  balanced s ->
  forall rest i d je,
    (1 <= d)%Z ->
    scan_braces (s ++ rest) i d je = scan_braces rest (i + String.length s) d je.
Proof.
  induction 1 as [|c s Ho Hc Hs IH|s t Hs IHs Ht IHt]; intros rest i d je Hd.
  - simpl. now rewrite Nat.add_0_r.
  - simpl. apply Ascii.eqb_neq in Ho, Hc. rewrite Ho, Hc.
    rewrite IH by assumption. f_equal. lia.
  - cbn [append scan_braces]. rewrite Ascii.eqb_refl.
    rewrite string_app_assoc. cbn [append].
    rewrite IHs by lia.
    cbn [scan_braces].
    replace (Ascii.eqb close_brace open_brace) with false by reflexivity.
    rewrite Ascii.eqb_refl.
    replace (d + 1 - 1)%Z with d by lia.
    destruct (Z.eqb_spec d 0) as [->|_]; [lia|].
    rewrite IHt by assumption.
    f_equal. cbn [String.length]. rewrite string_app_length. cbn [String.length]. lia.
Qed.

(** The loop leaves [json_end] alone or sets it beyond the current index. *)
Lemma scan_braces_range (rest : string) :
  forall i d je, je <= i -> scan_braces rest i d je = je \/ i < scan_braces rest i d je.
Proof.
  induction rest as [|c rest IH]; intros i d je Hle; cbn [scan_braces]; [now left|].
  destruct (Ascii.eqb c open_brace).
  - destruct (IH (S i) (d + 1)%Z je) as [E|E]; [lia | now left | right; lia].
  - destruct (Ascii.eqb c close_brace).
    + cbv zeta. destruct (d - 1 =? 0)%Z; [right; lia|].
      destruct (IH (S i) (d - 1)%Z je) as [E|E]; [lia | now left | right; lia].
    + destruct (IH (S i) d je) as [E|E]; [lia | now left | right; lia].
Qed.

Lemma prefix_of_cons (k : nat) (c : ascii) (s : string) :
  prefix_of (S k) (String c s) = String c (prefix_of k s).
Proof. reflexivity. Qed.

Lemma prefix_of_0 (s : string) : prefix_of 0 s = "".
Proof. now destruct s. Qed.

Lemma nonzero_prefixes_cons (d : Z) (c : ascii) (r : string) :
  (forall k, 1 <= k <= String.length (String c r) ->
             (d + brace_depth (prefix_of k (String c r)))%Z <> 0%Z)
  <->
  ((d + brace_delta c)%Z <> 0%Z /\
   forall k, 1 <= k <= String.length r ->
             (d + brace_delta c + brace_depth (prefix_of k r))%Z <> 0%Z).
Proof.
  cbn [String.length]. split.
  - intros H. split.
    + specialize (H 1 ltac:(lia)). rewrite prefix_of_cons, prefix_of_0 in H.
      cbn [brace_depth] in H. fold (brace_delta c) in H. lia.
    + intros k Hk. specialize (H (S k) ltac:(lia)).
      rewrite prefix_of_cons in H. cbn [brace_depth] in H.
      fold (brace_delta c) in H. lia.
  - intros [H1 H2] [|k] Hk; [lia|].
    rewrite prefix_of_cons. cbn [brace_depth]. fold (brace_delta c).
    destruct k as [|k].
    + rewrite prefix_of_0. cbn [brace_depth]. lia.
    + specialize (H2 (S k) ltac:(lia)). lia.
Qed.

(** With a positive count, the loop runs off the end of the text exactly
    when no prefix brings the count to zero. *)
Lemma scan_braces_exhausted (rest : string) :
  forall i d je,
    (1 <= d)%Z -> je <= i ->
    (scan_braces rest i d je = je <->
     forall k, 1 <= k <= String.length rest ->
               (d + brace_depth (prefix_of k rest))%Z <> 0%Z).
Proof.
  induction rest as [|c rest IH]; intros i d je Hd Hle.
  - cbn. split; [intros _ k Hk; lia | reflexivity].
  - rewrite nonzero_prefixes_cons. cbn [scan_braces]. unfold brace_delta.
    destruct (Ascii.eqb c open_brace).
    + rewrite (IH (S i) (d + 1)%Z je) by lia. split; [intros H; split; [lia|exact H] | tauto].
    + destruct (Ascii.eqb c close_brace).
      * cbv zeta. replace (d + -1)%Z with (d - 1)%Z by lia.
        destruct (Z.eqb_spec (d - 1) 0) as [E|E].
        -- split; [intros H; lia | intros [H _]; lia].
        -- rewrite (IH (S i) (d - 1)%Z je) by lia. tauto.
      * replace (d + 0)%Z with d by lia.
        rewrite (IH (S i) d je) by lia. split; [intros H; split; [lia|exact H] | tauto].
Qed.

(** [json_end <= json_start] holds exactly when the loop ran off the end. *)
Lemma scan_braces_le_start (rest : string) (start : nat) (d : Z) :
  (scan_braces rest (S start) d start <=? start)%nat = true <->
  scan_braces rest (S start) d start = start.
Proof.
  rewrite Nat.leb_le.
  destruct (scan_braces_range rest (S start) d start) as [E|E]; lia.
Qed.

Lemma never_closes_after_open (rest : string) :
  never_closes (String open_brace rest) <->
  forall k, 1 <= k <= String.length rest ->
            (1 + brace_depth (prefix_of k rest))%Z <> 0%Z.
Proof.
  unfold never_closes.
  pose proof (nonzero_prefixes_cons 0 open_brace rest) as H.
  change (brace_delta open_brace) with 1%Z in H.
  cbn [Z.add] in H. rewrite H. split; [tauto | intros K; split; [lia | exact K]].
Qed.

(** The extraction on a text split at its first opening brace. *)
Lemma extract_at_first_brace (pre rest : string) :
  contains_char open_brace pre = false ->
  extract_first_json_object (pre ++ String open_brace rest) =
    let start := String.length pre in
    let json_end := scan_braces rest (S start) 1 start in
    if (json_end <=? start)%nat then inl UnbalancedBraces
    else inr (mkSpan start json_end).
Proof.
  intros Hpre. unfold extract_first_json_object.
  rewrite contains_char_app, Hpre. cbn [contains_char orb].
  rewrite Ascii.eqb_refl. cbn [orb].
  rewrite (str_index_first _ _ _ Hpre), slice_from_app.
  cbn [scan_braces]. rewrite Ascii.eqb_refl. reflexivity.
Qed.

End ExtractFacts.

Section ExtractorClaims.

Import MlxAnalyze Spec ExtractFacts.

(** C6.  When the text before the first opening brace has no brace and
    the text between that brace and a closing brace has properly nested
    braces (nested objects, no stray brace), the returned span runs from
    the first opening brace to the closing brace that matches it, however
    many inner objects lie between and whatever follows: the first
    balanced span, not an inner, a longer or a later one. *)
Theorem extract_closes_at_outer_brace (pre body post : string) :
  contains_char open_brace pre = false ->
  balanced body ->
  let text := pre ++ String open_brace (body ++ String close_brace post) in
  let sp := mkSpan (String.length pre) (String.length pre + String.length body + 2) in
  extract_first_json_object text = inr sp /\
  json_str text sp = String open_brace (body ++ String close_brace "").
Proof.
  intros Hpre Hbody text sp. subst text sp. split.
  - rewrite (extract_at_first_brace _ _ Hpre). cbv zeta.
    rewrite (scan_braces_balanced _ Hbody) by lia.
    cbn [scan_braces].
    replace (Ascii.eqb close_brace open_brace) with false by reflexivity.
    rewrite Ascii.eqb_refl. cbn [Z.sub Z.add Z.opp Z.pos_sub Z.eqb].
    destruct (Nat.leb_spec (S (String.length pre) + String.length body + 1)
                           (String.length pre)) as [H|_]; [lia|].
    do 2 f_equal. lia.
  - unfold json_str, slice. cbn [json_start json_end].
    replace (String.length pre + String.length body + 2 - String.length pre)
      with (String.length (String open_brace (body ++ String close_brace "")))
      by (cbn [String.length]; rewrite string_app_length; cbn [String.length]; lia).
    replace (String open_brace (body ++ String close_brace post))
      with (String open_brace (body ++ String close_brace "") ++ post)
      by (cbn [append]; rewrite string_app_assoc; reflexivity).
    apply substring_app_exact.
Qed.

(** The example of the specification:
    [noise {"a": {"b": 1}} noise] yields [{"a": {"b": 1}}]. *)
Lemma extract_closes_at_outer_brace_witness :
  let text := dq "noise {'a': {'b': 1}} noise" in
  extract_first_json_object text = inr (mkSpan 6 21) /\
  json_str text (mkSpan 6 21) = dq "{'a': {'b': 1}}".
Proof.
  assert (Hbody : balanced (dq "'a': {'b': 1}")).
  { change (dq "'a': {'b': 1}")
      with (dq "'a': " ++ String open_brace (dq "'b': 1" ++ String close_brace "")).
    cbn. skip_plain_chars.
    apply (balanced_nest (dq "'b': 1") "").
    - cbn. skip_plain_chars. apply balanced_empty.
    - apply balanced_empty. }
  exact (extract_closes_at_outer_brace "noise " (dq "'a': {'b': 1}") " noise"
           eq_refl Hbody).
Defined.

(** C5.  The extraction fails in exactly two ways.  It fails with
    [NoOpeningBrace] exactly on the texts without an opening brace, and
    with [UnbalancedBraces] exactly on the texts in which the scan from
    the first opening brace reaches the end of input without the depth
    returning to zero; [{"a": 1] is such a text. *)
Theorem extract_failure_kinds :
  (forall text,
     extract_first_json_object text = inl NoOpeningBrace <->
     contains_char open_brace text = false) /\
  (forall text,
     extract_first_json_object text = inl UnbalancedBraces <->
     exists start,
       str_index open_brace text = Some start /\
       never_closes (slice_from start text)) /\
  extract_first_json_object (dq "{'a': 1") = inl UnbalancedBraces.
Proof.
  split; [|split].
  - intros text. unfold extract_first_json_object.
    destruct (contains_char open_brace text) eqn:Hc.
    + split; [|discriminate].
      destruct (str_index open_brace text) as [start|] eqn:Hi.
      * cbv zeta. now destruct (_ <=? _)%nat.
      * apply str_index_none in Hi. congruence.
    + tauto.
  - intros text.
    destruct (str_index open_brace text) as [start|] eqn:Hi.
    + destruct (str_index_split _ _ _ Hi) as (pre & rest & -> & Hpre & Hlen).
      rewrite (extract_at_first_brace _ _ Hpre). cbv zeta. rewrite Hlen.
      assert (Hiff : never_closes (String open_brace rest) <->
                     scan_braces rest (S start) 1 start = start).
      { rewrite never_closes_after_open.
        symmetry. apply scan_braces_exhausted; lia. }
      destruct (scan_braces rest (S start) 1 start <=? start)%nat eqn:Hle.
      * apply scan_braces_le_start in Hle. split; [|reflexivity].
        intros _. exists start. split; [reflexivity|].
        rewrite <- Hlen, slice_from_app. now apply Hiff.
      * split; [discriminate|].
        intros (start' & Hs & Hn). injection Hs as <-.
        rewrite <- Hlen, slice_from_app in Hn. apply Hiff in Hn.
        apply scan_braces_le_start in Hn. congruence.
    + split.
      * unfold extract_first_json_object. rewrite Hi.
        now destruct (contains_char open_brace text).
      * intros (start & Hs & _). discriminate.
  - reflexivity.
Qed.

(** The loop and the quote-aware scan agree on text without a double
    quote. *)
Lemma scan_braces_quote_free (rest : string) :
  contains_char dquote rest = false ->
  forall i d je,
    scan_braces rest i d je =
      match scan_quote_aware rest i d false false with
      | Some e => e
      | None => je
      end.
Proof.
  induction rest as [|c rest IH]; intros Hq i d je; [reflexivity|].
  cbn [contains_char] in Hq. apply orb_false_iff in Hq as [Hc Hq].
  cbn [scan_braces scan_quote_aware]. rewrite Hc.
  destruct (Ascii.eqb c open_brace); [now apply IH|].
  destruct (Ascii.eqb c close_brace); [|now apply IH].
  cbv zeta. destruct (d - 1 =? 0)%Z; [reflexivity | now apply IH].
Qed.

Lemma scan_quote_aware_range (rest : string) :
  forall i d q esc e, scan_quote_aware rest i d q esc = Some e -> i < e.
Proof.
  induction rest as [|c rest IH]; intros i d q esc e H; [discriminate|].
  cbn [scan_quote_aware] in H.
  repeat match type of H with
         | (if ?b then _ else _) = _ => destruct b
         end;
    try (apply IH in H; lia).
  injection H as <-. lia.
Qed.

(** On a response without any double quote the extraction is the
    quote-aware one. *)
Lemma extract_quote_free (text : string) :
  contains_char dquote text = false ->
  extract_first_json_object text = extract_quote_aware text.
Proof.
  intros Hq.
  destruct (str_index open_brace text) as [start|] eqn:Hi.
  - destruct (str_index_split _ _ _ Hi) as (pre & rest & Ht & Hpre & Hlen).
    subst text start. clear Hi.
    unfold extract_quote_aware.
    rewrite (str_index_first _ _ _ Hpre), slice_from_app.
    rewrite (extract_at_first_brace _ _ Hpre). cbv zeta.
    rewrite contains_char_app in Hq. apply orb_false_iff in Hq as [_ Hq].
    cbn [contains_char] in Hq. apply orb_false_iff in Hq as [_ Hq].
    cbn [scan_quote_aware].
    replace (Ascii.eqb open_brace dquote) with false by reflexivity.
    rewrite Ascii.eqb_refl. cbn [Z.add].
    rewrite (scan_braces_quote_free _ Hq).
    destruct (scan_quote_aware rest (S (String.length pre)) 1 false false)
      as [e|] eqn:He.
    + apply scan_quote_aware_range in He.
      destruct (Nat.leb_spec e (String.length pre)); [lia | reflexivity].
    + now rewrite Nat.leb_refl.
  - unfold extract_quote_aware. rewrite Hi.
    apply str_index_none in Hi. unfold extract_first_json_object. now rewrite Hi.
Qed.

(** C1.  The scan counts every brace, also one inside a quoted string.
    On a response whose only object has a closing brace inside a string
    value, the returned span stops at that brace: it is a proper prefix
    of the object and not a JSON text, so the analysis fails as soon as
    the parser rejects it; the quote-aware scan of the specification
    returns the whole object. *)
Theorem extract_cuts_at_brace_in_string :
  let text := dq "Sure: {'primary': 'joy', 'confidence': 0.9, 'markers': [':-}']} Done." in
  let object := dq "{'primary': 'joy', 'confidence': 0.9, 'markers': [':-}']}" in
  let cut := dq "{'primary': 'joy', 'confidence': 0.9, 'markers': [':-}" in
  text = "Sure: " ++ object ++ " Done." /\
  extract_first_json_object text = inr (mkSpan 6 60) /\
  json_str text (mkSpan 6 60) = cut /\
  extract_quote_aware text = inr (mkSpan 6 63) /\
  json_str text (mkSpan 6 63) = object /\
  forall (json_loads : string -> string + dict) (msg : string),
    json_loads cut = inl msg ->
    analyze_emotion json_loads text =
      inl (RuntimeError ("Emotion analysis failed: Invalid JSON - " ++ msg)).
Proof.
  cbv zeta. repeat split; try (vm_compute; reflexivity).
  intros json_loads msg Hcut.
  unfold analyze_emotion, extract_and_parse.
  replace (extract_first_json_object _) with (@inr extract_error _ (mkSpan 6 60))
    by (vm_compute; reflexivity).
  replace (json_str _ _)
    with (dq "{'primary': 'joy', 'confidence': 0.9, 'markers': [':-}")
    by (vm_compute; reflexivity).
  rewrite Hcut. reflexivity.
Qed.

End ExtractorClaims.

(** *** The required-field check *)

Section ValidatorClaims.

Import MlxAnalyze Spec.

Lemma validate_cases (kind : RecordKind) (record : dict) :
  validate kind record =
    match first_missing kind record with
    | Some _ => inl (ValueError (missing_fields_message kind))
    | None => inr record
    end.
Proof.
  destruct kind; unfold validate, validate_emotion, validate_fallacy, first_missing;
    cbn [required_keys find missing_fields_message].
  - destruct (dict_contains "primary" record), (dict_contains "confidence" record);
      reflexivity.
  - destruct (dict_contains "fallacies" record), (dict_contains "enrichment" record);
      reflexivity.
Qed.

(** C3, as the code has it.  A record that lacks a required key of its
    kind is rejected with a [ValueError] whose message is fixed by the kind
    alone: it says that required fields are missing and names none. *)
Theorem validate_missing_field (kind : RecordKind) (record : dict) (key : string) :
  first_missing kind record = Some key ->
  validate kind record = inl (ValueError (missing_fields_message kind)).
Proof.
  intros H. rewrite validate_cases, H. reflexivity.
Qed.

Lemma validate_missing_field_witness :
  first_missing Emotion [("primary", JString "joy")] = Some "confidence" /\
  validate Emotion [("primary", JString "joy")] =
    inl (ValueError "Invalid emotion JSON: missing required fields").
Proof.
  split; [reflexivity|].
  apply (validate_missing_field Emotion [("primary", JString "joy")] "confidence").
  reflexivity.
Defined.

(** C3, as stated, fails.  A record without [confidence] and a record
    without [primary] are rejected with the very same error, so no reading
    of the error recovers the first missing key. *)
Lemma validate_error_names_no_key :
  validate Emotion [("primary", JString "joy")] =
    inl (ValueError "Invalid emotion JSON: missing required fields") /\
  validate Emotion [("confidence", JFloat 0.9)] =
    inl (ValueError "Invalid emotion JSON: missing required fields") /\
  ~ (exists named_key : exn -> string,
       forall kind record key,
         first_missing kind record = Some key ->
         exists e, validate kind record = inl e /\ named_key e = key).
Proof.
  split; [reflexivity | split; [reflexivity|]].
  intros [named_key H].
  destruct (H Emotion [("primary", JString "joy")] "confidence" eq_refl)
    as (e1 & He1 & Hk1).
  destruct (H Emotion [("confidence", JFloat 0.9)] "primary" eq_refl)
    as (e2 & He2 & Hk2).
  cbn in He1, He2. injection He1 as <-. injection He2 as <-.
  rewrite Hk1 in Hk2. discriminate.
Qed.

(** C4.  An Emotion record that has the keys [primary] and [confidence]
    is returned as it is: same keys, same values, same order, whatever
    the types of the values and whether or not [markers] is present. *)
Theorem validate_emotion_identity (record : dict) :
  dict_contains "primary" record = true ->
  dict_contains "confidence" record = true ->
  validate Emotion record = inr record.
Proof.
  intros Hp Hc. unfold validate, validate_emotion. rewrite Hp, Hc. reflexivity.
Qed.

(** A record with a number for [primary] and a string for [confidence]
    passes unchanged. *)
Lemma validate_emotion_identity_witness :
  let record := [("confidence", JString "high"); ("primary", JInt 5)] in
  dict_contains "primary" record = true /\
  dict_contains "confidence" record = true /\
  validate Emotion record = inr record.
Proof.
  cbv zeta. split; [reflexivity | split; [reflexivity|]].
  apply (validate_emotion_identity
           [("confidence", JString "high"); ("primary", JInt 5)]);
    reflexivity.
Defined.

End ValidatorClaims.

(** *** The hallucination gate *)

Section GateClaims.

Import MlxTranscribe Spec.

(** C2.  The gate is the disjunction of the two tripwires, on every pair
    of binary64 signals; the three examples of the specification. *)
Theorem is_hallucination_rule :
  (forall no_speech_prob avg_logprob : float,
     is_hallucination no_speech_prob avg_logprob = true <->
     (float_gt no_speech_prob 0.5 = true /\ PrimFloat.ltb avg_logprob (-0.8) = true)
     \/ float_gt no_speech_prob 0.8 = true) /\
  is_hallucination 0.6 (-0.9) = true /\
  is_hallucination 0.9 (-0.1) = true /\
  is_hallucination 0.3 (-0.9) = false.
Proof.
  split; [|repeat split; reflexivity].
  intros nsp alp. unfold is_hallucination.
  rewrite orb_true_iff, andb_true_iff. reflexivity.
Qed.

Lemma emit_stdout (args_language : option string) (wave : string + float)
    (result : STTResult) :
  stdout (emit args_language wave result) =
    Some {| out_text := if suppressed result then "" else text result;
            out_language := str_or (language result) (str_or args_language "de");
            out_segments :=
              if suppressed result then []
              else match segments result with
                   | Some segs => map convert_segment segs
                   | None => []
                   end;
            speech_duration_sec := fst (get_audio_duration wave);
            total_duration_sec := fst (get_audio_duration wave) |}.
Proof.
  unfold emit, suppressed, signals. cbn [fst snd].
  destruct (get_audio_duration wave) as [d log2].
  destruct (is_hallucination _ _); destruct (segments result) as [[|seg segs]|];
    reflexivity.
Qed.

Lemma emit_stderr (args_language : option string) (wave : string + float)
    (result : STTResult) :
  stderr (emit args_language wave result) =
    ((if suppressed result
      then [HallucinationWarning (fst (signals result)) (snd (signals result))]
      else []) ++ snd (get_audio_duration wave))%list.
Proof.
  unfold emit, suppressed, signals. cbn [fst snd].
  destruct (get_audio_duration wave) as [d log2].
  destruct (is_hallucination _ _); destruct (segments result) as [[|seg segs]|];
    reflexivity.
Qed.

Lemma emit_exit_code (args_language : option string) (wave : string + float)
    (result : STTResult) :
  exit_code (emit args_language wave result) = 0%Z.
Proof.
  unfold emit. destruct (get_audio_duration wave) as [d log2].
  destruct (is_hallucination _ _); destruct (segments result) as [[|seg segs]|];
    reflexivity.
Qed.

(** C9.  When the gate fires on a result, the printed text is empty,
    while language and both durations are what any run on the same
    arguments, audio and language attribute prints when the gate does not
    fire; the run prints its output, exits with status 0, and standard
    error carries the warning with the two signal values and no error
    line for the transcription. *)
Theorem suppression_keeps_metadata (args_language : option string)
    (wave : string + float) (result accepted : STTResult) :
  suppressed result = true ->
  suppressed accepted = false ->
  language accepted = language result ->
  exists out out',
    stdout (main args_language wave (inr result)) = Some out /\
    stdout (main args_language wave (inr accepted)) = Some out' /\
    out_text out = "" /\
    out_text out' = text accepted /\
    out_language out = out_language out' /\
    speech_duration_sec out = speech_duration_sec out' /\
    total_duration_sec out = total_duration_sec out' /\
    exit_code (main args_language wave (inr result)) = 0%Z /\
    In (HallucinationWarning (fst (signals result)) (snd (signals result)))
       (stderr (main args_language wave (inr result))) /\
    forallb (fun l => negb (is_error_line l))
            (stderr (main args_language wave (inr result))) = true.
Proof.
  intros Hs Ha Hl. cbn [main].
  rewrite !emit_stdout, emit_stderr, emit_exit_code, Hs, Ha, Hl.
  eexists; eexists. split; [reflexivity|]. split; [reflexivity|].
  cbn [out_text out_language speech_duration_sec total_duration_sec].
  repeat split.
  - now left.
  - destruct wave; reflexivity.
Qed.

(** A German result with a no-speech probability of 0.9, against the same
    result without the two signals. *)
Lemma suppression_keeps_metadata_witness :
  let result :=
    {| text := "Vielen Dank."; no_speech_prob := Some 0.9%float;
       avg_logprob := Some (-0.1)%float; language := Some "de";
       segments := None |} in
  let accepted :=
    {| text := "Vielen Dank."; no_speech_prob := None;
       avg_logprob := None; language := Some "de";
       segments := None |} in
  suppressed result = true /\
  suppressed accepted = false /\
  exists out out',
    stdout (main None (inr 1.5%float) (inr result)) = Some out /\
    stdout (main None (inr 1.5%float) (inr accepted)) = Some out' /\
    out_text out = "" /\
    out_text out' = "Vielen Dank." /\
    out_language out = out_language out' /\
    speech_duration_sec out = speech_duration_sec out' /\
    total_duration_sec out = total_duration_sec out' /\
    exit_code (main None (inr 1.5%float) (inr result)) = 0%Z /\
    In (HallucinationWarning 0.9 (-0.1))
       (stderr (main None (inr 1.5%float) (inr result))) /\
    forallb (fun l => negb (is_error_line l))
            (stderr (main None (inr 1.5%float) (inr result))) = true.
Proof.
  cbv zeta. split; [reflexivity | split; [reflexivity|]].
  exact (suppression_keeps_metadata None (inr 1.5%float)
           {| text := "Vielen Dank."; no_speech_prob := Some 0.9%float;
              avg_logprob := Some (-0.1)%float; language := Some "de";
              segments := None |}
           {| text := "Vielen Dank."; no_speech_prob := None;
              avg_logprob := None; language := Some "de";
              segments := None |}
           eq_refl eq_refl eq_refl).
Defined.

(** C10.  When the gate fires on a result, the printed segments list is
    empty, whatever segments the transcription produced. *)
Theorem suppression_clears_segments (args_language : option string)
    (wave : string + float) (result : STTResult) :
  suppressed result = true ->
  exists out,
    stdout (main args_language wave (inr result)) = Some out /\
    out_segments out = [].
Proof.
  intros Hs. cbn [main]. rewrite emit_stdout, Hs.
  eexists. split; reflexivity.
Qed.

Lemma suppression_clears_segments_witness :
  let result :=
    {| text := "Untertitel"; no_speech_prob := Some 0.6%float;
       avg_logprob := Some (-0.9)%float; language := None;
       segments := Some [ {| seg_start := Some 0.0%float; seg_end := Some 2.0%float;
                             seg_text := Some "Untertitel" |} ] |} in
  suppressed result = true /\
  exists out,
    stdout (main (Some "de") (inr 2.0%float) (inr result)) = Some out /\
    out_segments out = [].
Proof.
  cbv zeta. split; [reflexivity|].
  apply (suppression_clears_segments (Some "de") (inr 2.0%float)
           {| text := "Untertitel"; no_speech_prob := Some 0.6%float;
              avg_logprob := Some (-0.9)%float; language := None;
              segments := Some [ {| seg_start := Some 0.0%float;
                                    seg_end := Some 2.0%float;
                                    seg_text := Some "Untertitel" |} ] |}).
  reflexivity.
Defined.

(** Without suppression the segments of the result are printed. *)
Lemma accepted_keeps_segments (args_language : option string)
    (wave : string + float) (result : STTResult) (segs : list Segment) :
  suppressed result = false ->
  segments result = Some segs ->
  exists out,
    stdout (main args_language wave (inr result)) = Some out /\
    out_text out = text result /\
    out_segments out = map convert_segment segs.
Proof.
  intros Hs Hsegs. cbn [main]. rewrite emit_stdout, Hs, Hsegs.
  eexists. repeat split.
Qed.

(** A failed transcription, by contrast, prints an error line and no
    output, and exits with status 1. *)
Lemma failed_transcription_run (args_language : option string)
    (wave : string + float) (msg : string) :
  main args_language wave (inl msg) =
    {| stdout := None; stderr := [ErrorLine msg]; exit_code := 1 |}.
Proof. reflexivity. Qed.

End GateClaims.

(** *** The accuracy gate *)

Section AccuracyClaims.

Import ValidateQuantized Spec.

Context {numpy : Numpy}.

Lemma validate_models_on_ready (env : Env) (sentences : list string) :
  ready env = true ->
  validate_models_on env sentences =
    (snd (compare_sentences env sentences),
     match fst (compare_sentences env sentences) with
     | [] => raise (RuntimeError "All embedding comparisons failed")
     | s :: ss => ret (np_mean (s :: ss), py_min s ss, py_max s ss)
     end).
Proof.
  unfold ready, validate_models_on. intros H.
  destruct (fp32_exists env), (int8_exists env); try discriminate.
  destruct (tokenizer_load env), (fp32_load env), (int8_load env); try discriminate.
  cbn [negb]. destruct (compare_sentences env sentences) as [[|s ss] rows]; reflexivity.
Qed.

Lemma validate_models_on_not_ready (env : Env) (sentences : list string) :
  ready env = false ->
  exists e, validate_models_on env sentences = ([], inl e).
Proof.
  unfold ready, validate_models_on. intros H.
  destruct (fp32_exists env); [|eexists; reflexivity].
  destruct (int8_exists env); [|eexists; reflexivity].
  destruct (tokenizer_load env); [eexists; reflexivity|].
  destruct (fp32_load env); [eexists; reflexivity|].
  destruct (int8_load env); [eexists; reflexivity|].
  discriminate.
Qed.

(** The loop treats a corpus piece by piece. *)
Lemma compare_sentences_app (env : Env) (before after : list string) :
  compare_sentences env (before ++ after)%list =
    ((fst (compare_sentences env before) ++ fst (compare_sentences env after))%list,
     (snd (compare_sentences env before) ++ snd (compare_sentences env after))%list).
Proof.
  induction before as [|text before IH]; cbn [compare_sentences app].
  - now destruct (compare_sentences env after).
  - rewrite IH. destruct (compare_sentences env before) as [sims rows].
    cbn [fst snd]. now destruct (compare_one env text).
Qed.

Lemma main_on_cases (env : Env) (sentences : list string) :
  main_on env sentences =
    if ready env then
      match fst (compare_sentences env sentences) with
      | [] => 2%Z
      | s :: ss => if float_ge (np_mean (s :: ss)) SIMILARITY_THRESHOLD then 0%Z else 1%Z
      end
    else 2%Z.
Proof.
  unfold main_on. destruct (ready env) eqn:Hr.
  - rewrite (validate_models_on_ready _ _ Hr). cbn [snd].
    now destruct (fst (compare_sentences env sentences)).
  - destruct (validate_models_on_not_ready _ sentences Hr) as [e ->].
    cbn [snd]. now destruct e.
Qed.

Lemma validate_models_on_raises (env : Env) (sentences : list string) :
  (exists e, snd (validate_models_on env sentences) = inl e) <->
  ready env = false \/ fst (compare_sentences env sentences) = [].
Proof.
  destruct (ready env) eqn:Hr.
  - rewrite (validate_models_on_ready _ _ Hr). cbn [snd].
    destruct (fst (compare_sentences env sentences)) as [|s ss].
    + split; [now right | intros _; eexists; reflexivity].
    + split; [intros [e H]; discriminate H | intros [H|H]; discriminate H].
  - destruct (validate_models_on_not_ready _ sentences Hr) as [e ->].
    cbn [snd]. split; [now left | intros _; now exists e].
Qed.

(** C7.  The exit code is 0 exactly when everything loads, at least one
    sentence was compared, and the mean of the collected similarities is
    at least the threshold 0.98; it is 1 exactly when the mean is not;
    and it is 2 exactly when [validate_models] raised, which it does when
    a model file is missing, loading fails, or no sentence was compared. *)
Theorem main_exit_code (env : Env) (sentences : list string) :
  let similarities := fst (compare_sentences env sentences) in
  (main_on env sentences = 0%Z <->
     ready env = true /\ similarities <> [] /\
     float_ge (np_mean similarities) SIMILARITY_THRESHOLD = true) /\
  (main_on env sentences = 1%Z <->
     ready env = true /\ similarities <> [] /\
     float_ge (np_mean similarities) SIMILARITY_THRESHOLD = false) /\
  (main_on env sentences = 2%Z <->
     exists e, snd (validate_models_on env sentences) = inl e) /\
  ((exists e, snd (validate_models_on env sentences) = inl e) <->
     ready env = false \/ similarities = []).
Proof.
  cbv zeta. rewrite validate_models_on_raises, main_on_cases.
  destruct (ready env);
    [destruct (fst (compare_sentences env sentences)) as [|s ss];
     [|destruct (float_ge (np_mean (s :: ss)) SIMILARITY_THRESHOLD)]|];
    intuition (try discriminate; try congruence).
Qed.

Lemma cosine_similarity_zero_magnitude (a b : list float) :
  List.length a = List.length b ->
  PrimFloat.eqb (np_linalg_norm a) 0 || PrimFloat.eqb (np_linalg_norm b) 0 = true ->
  cosine_similarity a b = inl (ValueError zero_magnitude_message).
Proof.
  intros Hlen Hz. unfold cosine_similarity.
  rewrite Hlen, Nat.eqb_refl. cbn [negb]. cbv zeta. rewrite Hz. reflexivity.
Qed.

(** C8.  A zero-magnitude embedding is fatal for that sentence's
    comparison and is not passed over in silence.  When one of the two
    embeddings of a sentence has norm zero, [cosine_similarity] raises a
    [ValueError] and gives no similarity; the loop reports it: the
    sentence gets a failure line with the message of the error in the
    printed table.  It has no similarity row and no part in the mean,
    minimum and maximum, which are those of the other sentences, and the
    run itself raises when no sentence at all could be compared. *)
Theorem zero_magnitude_reported_and_skipped (env : Env) (before after : list string)
    (text : string) (fp32_emb int8_emb : list float) :
  ready env = true ->
  embed_fp32 env text = inr fp32_emb ->
  embed_int8 env text = inr int8_emb ->
  List.length fp32_emb = List.length int8_emb ->
  PrimFloat.eqb (np_linalg_norm fp32_emb) 0
    || PrimFloat.eqb (np_linalg_norm int8_emb) 0 = true ->
  let similarities :=
    (fst (compare_sentences env before) ++ fst (compare_sentences env after))%list in
  cosine_similarity fp32_emb int8_emb = inl (ValueError zero_magnitude_message) /\
  validate_models_on env (before ++ text :: after)%list =
    ((snd (compare_sentences env before)
       ++ FailedRow (substring 0 30 text) zero_magnitude_message
       :: snd (compare_sentences env after))%list,
     match similarities with
     | [] => raise (RuntimeError "All embedding comparisons failed")
     | s :: ss => ret (np_mean (s :: ss), py_min s ss, py_max s ss)
     end).
Proof.
  intros Hr Hfp Hint Hlen Hz. cbv zeta.
  pose proof (cosine_similarity_zero_magnitude _ _ Hlen Hz) as Hcos.
  split; [exact Hcos|].
  rewrite (validate_models_on_ready _ _ Hr), compare_sentences_app.
  cbn [fst snd compare_sentences].
  unfold compare_one. rewrite Hfp, Hint. cbn [bind]. rewrite Hcos.
  destruct (compare_sentences env after) as [sims rows]. reflexivity.
Qed.

End AccuracyClaims.

Section AccuracyRuns.

Import ValidateQuantized Spec.

(** The first sentence of the corpus embedded as the zero vector by the
    full-precision model, kernels computed sequentially. *)
Lemma zero_magnitude_reported_and_skipped_witness :
  let env := env_zero_for "Was ist Stress?" in
  let ones := [1.0; 1.0; 1.0; 1.0; 1.0; 1.0; 1.0]%float in
  @cosine_similarity NumpySeq [0.0; 0.0]%float [3.0; 4.0]%float =
    inl (ValueError zero_magnitude_message) /\
  @validate_models_on NumpySeq env ([] ++ "Was ist Stress?" :: tl TEST_SENTENCES)%list =
    (([] ++ FailedRow "Was ist Stress?" zero_magnitude_message
         :: map (fun text => SimilarityRow text 1.0%float true) (tl TEST_SENTENCES))%list,
     inr (1.0, 1.0, 1.0)%float).
Proof.
  exact (@zero_magnitude_reported_and_skipped NumpySeq
           (env_zero_for "Was ist Stress?") [] (tl TEST_SENTENCES)
           "Was ist Stress?" [0.0; 0.0]%float [3.0; 4.0]%float
           eq_refl eq_refl eq_refl eq_refl eq_refl).
Defined.

(** The same run, seen from the exit code: the comparison of the first
    sentence raises, the similarities are those of the seven other
    sentences, their mean is 1, and the script exits with status 0. *)
Lemma zero_magnitude_sentence_omitted :
  let env := env_zero_for "Was ist Stress?" in
  @compare_one NumpySeq env "Was ist Stress?" = inl (ValueError zero_magnitude_message) /\
  fst (@compare_sentences NumpySeq env TEST_SENTENCES) =
    [1.0; 1.0; 1.0; 1.0; 1.0; 1.0; 1.0]%float /\
  snd (@validate_models NumpySeq env) = inr (1.0, 1.0, 1.0)%float /\
  @main NumpySeq env = 0%Z.
Proof.
  cbv zeta. repeat split; vm_compute; reflexivity.
Qed.

(** Three runs of the script, one per exit code. *)
Example main_passes :
  @main NumpySeq (env_zero_for "no such sentence") = 0%Z.
Proof. vm_compute. reflexivity. Qed.

Example main_fails_below_threshold :
  @main NumpySeq
    {| fp32_exists := true; int8_exists := true;
       tokenizer_load := None; fp32_load := None; int8_load := None;
       embed_fp32 := fun _ => ret [3.0; 4.0]%float;
       embed_int8 := fun _ => ret [4.0; 3.0]%float |} = 1%Z.
Proof. vm_compute. reflexivity. Qed.

Example main_errors_on_missing_file :
  @main NumpySeq
    {| fp32_exists := true; int8_exists := false;
       tokenizer_load := None; fp32_load := None; int8_load := None;
       embed_fp32 := fun _ => ret [3.0; 4.0]%float;
       embed_int8 := fun _ => ret [3.0; 4.0]%float |} = 2%Z.
Proof. vm_compute. reflexivity. Qed.

End AccuracyRuns.

(** *** Trimming the response *)

Module TrimFacts.

Import MlxAnalyze AnalyzeScript.

Lemma prefix_split (m t : string) :
  String.prefix m t = true -> exists after, t = m ++ after.
Proof.
  revert t. induction m as [|a m IH]; intros t H.
  - now exists t.
  - destruct t as [|b t]; [discriminate|]. cbn in H.
    destruct (ascii_dec a b) as [->|]; [|discriminate].
    destruct (IH _ H) as [after ->]. now exists after.
Qed.

Lemma prefix_app (m after : string) : String.prefix m (m ++ after) = true.
Proof.
  induction m as [|a m IH]; [now destruct after|].
  cbn. now destruct (ascii_dec a a).
Qed.

Lemma prefix_app_r (m x y : string) :
  String.prefix m x = true -> String.prefix m (x ++ y) = true.
Proof.
  intros H. destruct (prefix_split _ _ H) as [after ->].
  rewrite string_app_assoc. apply prefix_app.
Qed.

(** A match that starts in [x] and runs on: either it lies in [x], or [x]
    is used up and the rest of the pattern matches what follows. *)
Lemma prefix_app_cases (m x y : string) :
  String.prefix m (x ++ y) = true ->
  String.prefix m x = true \/
  exists m2, m = x ++ m2 /\ String.prefix m2 y = true.
Proof.
  revert x. induction m as [|a m IH]; intros x H.
  - left. now destruct x.
  - destruct x as [|b x].
    + right. now exists (String a m).
    + cbn in H |- *. destruct (ascii_dec a b) as [->|]; [|discriminate].
      destruct (IH _ H) as [Hl|(m2 & -> & Hr)]; [now left|].
      right. now exists m2.
Qed.

Lemma str_find_unfold (m t : string) :
  str_find m t =
    if String.prefix m t then Some 0
    else match t with
         | EmptyString => None
         | String _ rest => option_map S (str_find m rest)
         end.
Proof. now destruct t. Qed.

Lemma str_find_none_cons (m : string) (c : ascii) (t : string) :
  str_find m (String c t) = None ->
  String.prefix m (String c t) = false /\ str_find m t = None.
Proof.
  rewrite str_find_unfold. destruct (String.prefix m (String c t)); [discriminate|].
  destruct (str_find m t); [discriminate | tauto].
Qed.

Lemma str_find_none_not_occurs (m t : string) :
  str_find m t = None -> ~ occurs m t.
Proof.
  induction t as [|c t IH]; intros H (before & after & E).
  - rewrite str_find_unfold in H.
    destruct before; [|discriminate]. cbn in E. rewrite E, prefix_app in H. discriminate.
  - apply str_find_none_cons in H as [Hp Hf].
    destruct before as [|b before].
    + cbn in E. rewrite E, prefix_app in Hp. discriminate.
    + cbn in E. injection E as _ E. apply (IH Hf). now exists before, after.
Qed.

(** The first occurrence splits the text; the part before it has none. *)
Lemma str_find_some_split (m t : string) (n : nat) :
  m <> "" ->
  str_find m t = Some n ->
  exists before after,
    t = before ++ m ++ after /\ String.length before = n /\ str_find m before = None.
Proof.
  intros Hm. revert n. induction t as [|c t IH]; intros n H;
    rewrite str_find_unfold in H.
  - destruct (String.prefix m "") eqn:Hp; [|discriminate].
    destruct m; [contradiction | discriminate].
  - destruct (String.prefix m (String c t)) eqn:Hp.
    + injection H as <-. destruct (prefix_split _ _ Hp) as [after E].
      exists "", after. repeat split; [exact E|].
      rewrite str_find_unfold. destruct m; [contradiction | reflexivity].
    + destruct (str_find m t) as [n'|]; [|discriminate]. injection H as <-.
      destruct (IH n' eq_refl) as (before & after & -> & Hlen & Hnone).
      exists (String c before), after. cbn [append String.length].
      repeat split; [now rewrite Hlen|].
      rewrite str_find_unfold, Hnone.
      destruct (String.prefix m (String c before)) eqn:Hq; [|reflexivity].
      apply (prefix_app_r _ _ (m ++ after)) in Hq. cbn [append] in Hq. congruence.
Qed.

Lemma str_find_some_occurs (m t : string) (n : nat) :
  str_find m t = Some n -> occurs m t.
Proof.
  destruct m as [|a m].
  - intros _. exists "", t. reflexivity.
  - intros H. apply str_find_some_split in H as (before & after & E & _); [|discriminate].
    now exists before, after.
Qed.

(** No occurrence in a text, none in a piece of it. *)
Lemma str_find_none_piece (m l x r : string) :
  str_find m (l ++ x ++ r) = None -> str_find m x = None.
Proof.
  intros H. destruct (str_find m x) as [n|] eqn:E; [|reflexivity].
  exfalso. apply (str_find_none_not_occurs _ _ H).
  destruct (str_find_some_occurs _ _ _ E) as (before & after & ->).
  exists (l ++ before), (after ++ r). now rewrite !string_app_assoc.
Qed.

Lemma string_app_nil_r (s : string) : s ++ "" = s.
Proof. induction s as [|c s IH]; cbn; [reflexivity | now rewrite IH]. Qed.

Lemma substring_0_app (a x : string) : substring 0 (String.length a) (a ++ x) = a.
Proof.
  pose proof (substring_app_exact "" a x) as H. exact H.
Qed.

Lemma lstrip_suffix (s : string) : exists l, s = l ++ lstrip s.
Proof.
  induction s as [|c s [l IH]]; [now exists ""|]. cbn.
  destruct (is_space c).
  - exists (String c l). cbn. now rewrite <- IH.
  - now exists "".
Qed.

Lemma rstrip_prefix (s : string) : exists r, s = rstrip s ++ r.
Proof.
  induction s as [|c s [r IH]]; [now exists ""|]. cbn.
  destruct (rstrip s) as [|k kept] eqn:E.
  - destruct (is_space c).
    + exists (String c s). reflexivity.
    + exists s. reflexivity.
  - exists r. cbn in IH |- *. now f_equal.
Qed.

(** [strip] returns a piece of its argument. *)
Lemma strip_piece (s : string) : exists l r, s = l ++ strip s ++ r.
Proof.
  destruct (lstrip_suffix s) as [l El]. destruct (rstrip_prefix (lstrip s)) as [r Er].
  exists l, r. unfold strip. now rewrite <- Er.
Qed.

Lemma lstrip_idempotent (s : string) : lstrip (lstrip s) = lstrip s.
Proof.
  induction s as [|c s IH]; [reflexivity|]. cbn.
  destruct (is_space c) eqn:E; [exact IH|]. cbn. now rewrite E.
Qed.

Lemma lstrip_app_nonspace (a : string) (c : ascii) (x : string) :
  is_space c = false -> lstrip (a ++ String c x) = lstrip a ++ String c x.
Proof.
  intros Hc. induction a as [|d a IH]; cbn.
  - now rewrite Hc.
  - now destruct (is_space d).
Qed.

Lemma rstrip_cons_nonspace (c : ascii) (s : string) :
  is_space c = false -> rstrip (String c s) = String c (rstrip s).
Proof.
  intros Hc. cbn. rewrite Hc. now destruct (rstrip s).
Qed.

Lemma rstrip_app_kept (x y : string) :
  rstrip y <> "" -> rstrip (x ++ y) = x ++ rstrip y.
Proof.
  intros Hy. induction x as [|c x IH]; [reflexivity|].
  cbn. rewrite IH. destruct (x ++ rstrip y) as [|k kept] eqn:E; [|reflexivity].
  destruct x; [|discriminate]. cbn in E. contradiction.
Qed.

(** A pattern whose first character does not come back later in it is
    found right after a text that does not contain it. *)
Lemma str_find_first (m0 : ascii) (mr a after : string) :
  contains_char m0 mr = false ->
  str_find (String m0 mr) a = None ->
  str_find (String m0 mr) (a ++ String m0 mr ++ after) = Some (String.length a).
Proof.
  intros Hm. induction a as [|c a IH]; intros Ha.
  - change (str_find (String m0 mr) (String m0 mr ++ after) = Some 0).
    now rewrite str_find_unfold, prefix_app.
  - apply str_find_none_cons in Ha as [Hp Ha].
    change (String c a ++ String m0 mr ++ after)
      with (String c (a ++ (String m0 mr ++ after))).
    rewrite str_find_unfold.
    destruct (String.prefix (String m0 mr) (String c (a ++ (String m0 mr ++ after))))
      eqn:Hq.
    + exfalso.
      change (String c (a ++ (String m0 mr ++ after)))
        with (String c a ++ (String m0 mr ++ after)) in Hq.
      apply prefix_app_cases in Hq as [Hq|(m2 & E & Hq)]; [congruence|].
      cbn [append] in E. injection E as -> ->.
      destruct m2 as [|d m2].
      * rewrite string_app_nil_r in Hp.
        pose proof (prefix_app (String c a) "") as K.
        rewrite string_app_nil_r in K. congruence.
      * cbn in Hq. destruct (ascii_dec d c) as [->|]; [|discriminate].
        rewrite contains_char_app in Hm. cbn in Hm.
        rewrite Ascii.eqb_refl in Hm. cbn in Hm.
        now rewrite orb_true_r in Hm.
    + now rewrite (IH Ha).
Qed.

End TrimFacts.

Section TrimProperties.

Import MlxAnalyze AnalyzeScript TrimFacts.

(** X1.  The text handed to the brace scan never contains the
    end-of-text marker, whatever the response was. *)
Theorem trim_response_no_marker (response : string) :
  str_in EOS (trim_response response) = false.
Proof.
  unfold trim_response, str_in, split_first. cbv zeta.
  destruct (str_find EOS (strip response)) as [n|] eqn:E.
  - apply str_find_some_split in E as (before & after & Et & Hlen & Hnone);
      [|discriminate].
    rewrite Et, <- Hlen, substring_0_app.
    destruct (strip_piece before) as (l & r & Eb).
    rewrite Eb in Hnone. apply str_find_none_piece in Hnone. now rewrite Hnone.
  - now rewrite E.
Qed.

(** X2.  Everything from the first marker on is dropped: when the text
    before a marker holds no marker, the scan reads that text, stripped,
    whatever follows the marker. *)
Theorem trim_response_cuts_at_marker (before after : string) :
  str_in EOS before = false ->
  trim_response (before ++ EOS ++ after) = strip before.
Proof.
  unfold str_in. intros Hb.
  destruct (str_find EOS before) eqn:Hnone; [discriminate|]. clear Hb.
  assert (Hr : forall s, rstrip (EOS ++ s) = EOS ++ rstrip s).
  { intros s. unfold EOS. cbn [append].
    repeat rewrite rstrip_cons_nonspace by reflexivity. reflexivity. }
  assert (Hstrip : strip (before ++ EOS ++ after) = lstrip before ++ EOS ++ rstrip after).
  { unfold strip.
    replace (EOS ++ after) with (String "<" ("|endoftext|>" ++ after)) by reflexivity.
    rewrite lstrip_app_nonspace by reflexivity.
    change (String "<" ("|endoftext|>" ++ after)) with (EOS ++ after).
    rewrite rstrip_app_kept; rewrite Hr; [reflexivity | unfold EOS; discriminate]. }
  assert (Hl : str_find EOS (lstrip before) = None).
  { destruct (lstrip_suffix before) as [l El]. rewrite El in Hnone.
    rewrite <- (string_app_nil_r (lstrip before)) in Hnone.
    now apply str_find_none_piece in Hnone. }
  unfold trim_response, str_in, split_first. cbv zeta. rewrite Hstrip.
  pose proof (str_find_first "<" "|endoftext|>" (lstrip before) (rstrip after)
                eq_refl Hl) as Hfirst.
  change (String "<" "|endoftext|>") with EOS in Hfirst.
  rewrite Hfirst, substring_0_app. unfold strip. now rewrite lstrip_idempotent.
Qed.

Lemma trim_response_cuts_at_marker_witness :
  str_in EOS " {'a': 1} " = false /\
  trim_response (" {'a': 1} " ++ EOS ++ " } and more <|endoftext|>") = "{'a': 1}".
Proof.
  split; [reflexivity|].
  exact (trim_response_cuts_at_marker " {'a': 1} " " } and more <|endoftext|>" eq_refl).
Defined.

End TrimProperties.

(** *** The analyses and [main] of [mlx_analyze.py] *)

Section AnalyzeProperties.

Import MlxAnalyze Spec ExtractFacts AnalyzeScript AnalyzeScriptSpec.

Variable json_loads : string -> string + dict.

(** The span of a first object with properly nested braces. *)
Lemma extract_balanced_object (pre body post : string) :
  contains_char open_brace pre = false ->
  balanced body ->
  extract_first_json_object (pre ++ String open_brace (body ++ String close_brace post))
    = inr (mkSpan (String.length pre) (String.length pre + String.length body + 2)).
Proof.
  intros Hpre Hbody. rewrite (extract_at_first_brace _ _ Hpre). cbv zeta.
  rewrite (scan_braces_balanced _ Hbody) by lia.
  cbn [scan_braces].
  replace (Ascii.eqb close_brace open_brace) with false by reflexivity.
  rewrite Ascii.eqb_refl. cbn [Z.sub Z.add Z.opp Z.pos_sub Z.eqb].
  destruct (Nat.leb_spec (S (String.length pre) + String.length body + 1)
                         (String.length pre)) as [H|_]; [lia|].
  do 2 f_equal. lia.
Qed.

Lemma json_str_balanced_object (pre body post : string) :
  json_str (pre ++ String open_brace (body ++ String close_brace post))
           (mkSpan (String.length pre) (String.length pre + String.length body + 2))
    = String open_brace (body ++ String close_brace "").
Proof.
  unfold json_str, slice. cbn [json_start json_end].
  replace (String.length pre + String.length body + 2 - String.length pre)
    with (String.length (String open_brace (body ++ String close_brace "")))
    by (cbn [String.length]; rewrite string_app_length; cbn [String.length]; lia).
  replace (String open_brace (body ++ String close_brace post))
    with (String open_brace (body ++ String close_brace "") ++ post)
    by (cbn [append]; rewrite string_app_assoc; reflexivity).
  apply substring_app_exact.
Qed.

(** Extraction and parsing hand the parser the first object and nothing
    else. *)
Lemma extract_and_parse_first_object (pre body post : string) :
  contains_char open_brace pre = false ->
  balanced body ->
  extract_and_parse json_loads
      (pre ++ String open_brace (body ++ String close_brace post)) =
    match json_loads (String open_brace (body ++ String close_brace "")) with
    | inl msg => raise (JSONDecodeError msg)
    | inr result => ret result
    end.
Proof.
  intros Hpre Hbody. unfold extract_and_parse.
  now rewrite (extract_balanced_object _ _ _ Hpre Hbody), json_str_balanced_object.
Qed.

(** X3.  Prose before the object, prose after it: when the first opening
    brace of the text starts an object with properly nested braces that
    the parser reads as a record with [primary] and [confidence], the
    emotion analysis returns exactly that record. *)
Theorem analyze_emotion_returns_first_object (pre body post : string) (record : dict) :
  contains_char open_brace pre = false ->
  balanced body ->
  json_loads (String open_brace (body ++ String close_brace "")) = inr record ->
  dict_contains "primary" record = true ->
  dict_contains "confidence" record = true ->
  analyze_emotion json_loads
    (pre ++ String open_brace (body ++ String close_brace post)) = inr record.
Proof.
  intros Hpre Hbody Hparse Hp Hc. unfold analyze_emotion.
  rewrite (extract_and_parse_first_object _ _ _ Hpre Hbody), Hparse.
  cbn [ret bind]. unfold validate_emotion. rewrite Hp, Hc. reflexivity.
Qed.

(** X4.  What follows the first object never matters: two texts that
    agree up to the closing brace of their first object get the same
    outcome from either analysis, record or error. *)
Theorem analysis_ignores_text_after_object (pre body post post' : string) :
  contains_char open_brace pre = false ->
  balanced body ->
  analyze_emotion json_loads (pre ++ String open_brace (body ++ String close_brace post))
    = analyze_emotion json_loads
        (pre ++ String open_brace (body ++ String close_brace post')) /\
  analyze_fallacy json_loads (pre ++ String open_brace (body ++ String close_brace post))
    = analyze_fallacy json_loads
        (pre ++ String open_brace (body ++ String close_brace post')).
Proof.
  intros Hpre Hbody. unfold analyze_emotion, analyze_fallacy.
  now rewrite !(extract_and_parse_first_object _ _ _ Hpre Hbody).
Qed.

Lemma analyze_emotion_outcome (response_text : string) :
  match analyze_emotion json_loads response_text with
  | inr result =>
      dict_contains "primary" result = true /\ dict_contains "confidence" result = true
  | inl e => exists msg, e = RuntimeError ("Emotion analysis failed: " ++ msg)
  end.
Proof.
  unfold analyze_emotion.
  destruct (extract_and_parse json_loads response_text) as [e|result]; cbn.
  - destruct e; eexists; reflexivity.
  - unfold validate_emotion.
    destruct (dict_contains "primary" result) eqn:Hp,
             (dict_contains "confidence" result) eqn:Hc; cbn;
      first [now split | eexists; reflexivity].
Qed.

Lemma analyze_fallacy_outcome (response_text : string) :
  match analyze_fallacy json_loads response_text with
  | inr result =>
      dict_contains "fallacies" result = true /\ dict_contains "enrichment" result = true
  | inl e => exists msg, e = RuntimeError ("Fallacy analysis failed: " ++ msg)
  end.
Proof.
  unfold analyze_fallacy.
  destruct (extract_and_parse json_loads response_text) as [e|result]; cbn.
  - eexists; reflexivity.
  - unfold validate_fallacy.
    destruct (dict_contains "fallacies" result) eqn:Hf,
             (dict_contains "enrichment" result) eqn:He; cbn;
      first [now split | eexists; reflexivity].
Qed.

Variable unbound_response_message : string.

Lemma emotion_generated_outcome (generated : Generated) :
  forallb (fun l => negb (is_error_json l))
          (fst (analyze_emotion_generated json_loads unbound_response_message generated))
    = true /\
  match snd (analyze_emotion_generated json_loads unbound_response_message generated) with
  | inr result =>
      dict_contains "primary" result = true /\ dict_contains "confidence" result = true
  | inl error =>
      (exists msg, error = "Emotion analysis failed: " ++ msg) \/
      (error = unbound_response_message /\
       exists msg, generated = RaisedJSONDecodeError msg)
  end.
Proof.
  destruct generated as [response|msg|msg]; cbn [analyze_emotion_generated fst snd].
  - split.
    + destruct (extract_and_parse json_loads (trim_response response)) as [[| | |]|];
        reflexivity.
    + pose proof (analyze_emotion_outcome (trim_response response)) as H.
      destruct (analyze_emotion json_loads (trim_response response)) as [e|result];
        cbn [outcome_of]; [|exact H].
      destruct H as [msg ->]. left. now exists msg.
  - split; [reflexivity|]. right. split; [reflexivity | now exists msg].
  - split; [reflexivity|]. left. now exists msg.
Qed.

Lemma fallacy_generated_outcome (generated : Generated) :
  fst (analyze_fallacy_generated json_loads generated) = [] /\
  match snd (analyze_fallacy_generated json_loads generated) with
  | inr result =>
      dict_contains "fallacies" result = true /\ dict_contains "enrichment" result = true
  | inl error => exists msg, error = "Fallacy analysis failed: " ++ msg
  end.
Proof.
  destruct generated as [response|msg|msg]; cbn [analyze_fallacy_generated fst snd].
  - split; [reflexivity|].
    pose proof (analyze_fallacy_outcome (trim_response response)) as H.
    destruct (analyze_fallacy json_loads (trim_response response)) as [e|result];
      cbn [outcome_of]; [|exact H].
    destruct H as [msg ->]. now exists msg.
  - split; [reflexivity|]. now exists msg.
  - split; [reflexivity|]. now exists msg.
Qed.

Lemma get_model_path_of_choice (model : string) (models_dir : option string) :
  existsb (String.eqb model) model_choices = true ->
  exists model_path, get_model_path model models_dir = inr model_path.
Proof.
  unfold get_model_path. cbn.
  repeat match goal with
         | |- context [String.eqb model ?k] => destruct (String.eqb model k)
         end;
    cbn; intros H; try discriminate; eexists; reflexivity.
Qed.

(** X5.  A model name outside the accepted choices ends the script in the
    argument parser: nothing is printed, the exit status is 2, and
    standard error holds the usage error alone.  Otherwise a run ends in
    one of two ways.  Either it prints a record, exits with status 0, the
    record has both keys its mode requires, and standard error holds no
    error object.  Or it prints nothing, exits with status 1, and the last
    line of standard error is an error object that carries the mode and
    the model name; its message starts with the mode's "analysis failed"
    prefix, except when printing the record failed and except when, in
    emotion mode, loading or generating raised a JSON decoding error, in
    which case the message is that of the handler's own unbound
    [response]. *)
Theorem main_prints_record_or_error (mode : Mode) (text model : string)
    (models_dir : option string) (generate : string -> Generated)
    (print_fails : dict -> option string) :
  let run :=
    main json_loads unbound_response_message mode text model models_dir
         generate print_fails in
  (existsb (String.eqb model) model_choices = false ->
   stdout run = None /\ exit_code run = 2%Z /\ stderr run = [UsageError model]) /\
  (existsb (String.eqb model) model_choices = true ->
   (exists result,
      stdout run = Some result /\ exit_code run = 0%Z /\
      print_fails result = None /\
      forallb (fun key => dict_contains key result) (mode_keys mode) = true /\
      forallb (fun l => negb (is_error_json l)) (stderr run) = true)
   \/
   (exists error,
      stdout run = None /\ exit_code run = 1%Z /\
      last (stderr run) (LogMode "") = ErrorJson error (mode_str mode) model /\
      ((exists msg, error = failure_prefix mode ++ msg) \/
       (mode = emotion /\ error = unbound_response_message /\
        exists model_path msg, generate model_path = RaisedJSONDecodeError msg) \/
       (exists result, print_fails result = Some error)))).
Proof.
  cbv zeta. unfold main.
  destruct (existsb (String.eqb model) model_choices) eqn:Hchoice; cbn [negb].
  { split; [discriminate|]. intros _.
    destruct (get_model_path_of_choice model models_dir Hchoice) as [model_path ->].
    assert (Hlast : forall (log printed : list stderr_line) (l : stderr_line),
              last (log ++ printed ++ [l])%list (LogMode "") = l).
    { intros log printed l. rewrite app_assoc. apply last_last. }
    destruct mode; cbn [mode_str mode_keys failure_prefix].
    - pose proof (emotion_generated_outcome (generate model_path)) as [Hprinted H].
      destruct (analyze_emotion_generated json_loads unbound_response_message
                  (generate model_path)) as [printed [error|result]];
        cbn [fst snd] in *.
      + right. exists error. cbn [stdout exit_code stderr]. rewrite Hlast.
        repeat split. destruct H as [H|[-> [msg Hg]]]; [now left|].
        right. left. repeat split. now exists model_path, msg.
      + destruct (print_fails result) as [msg|] eqn:Hprint.
        * right. exists msg. cbn [stdout exit_code stderr]. rewrite Hlast.
          repeat split. right. right. now exists result.
        * left. exists result. cbn [stdout exit_code stderr forallb].
          destruct H as [-> ->]. cbn [andb]. repeat split; [exact Hprint|].
          exact Hprinted.
    - pose proof (fallacy_generated_outcome (generate model_path)) as [Hprinted H].
      destruct (analyze_fallacy_generated json_loads (generate model_path))
        as [printed [error|result]]; cbn [fst snd] in *; subst printed.
      + right. exists error. cbn [stdout exit_code stderr]. rewrite Hlast.
        repeat split. now left.
      + destruct (print_fails result) as [msg|] eqn:Hprint.
        * right. exists msg. cbn [stdout exit_code stderr]. rewrite Hlast.
          repeat split. right. right. now exists result.
        * left. exists result. cbn [stdout exit_code stderr forallb].
          destruct H as [-> ->]. cbn [andb]. repeat split. exact Hprint. }
  split; [|discriminate]. intros _. repeat split.
Qed.

(** The handler's own failure, on a run: in emotion mode a JSON decoding
    error raised while loading the model is reported without the
    "analysis failed" prefix and after a single [ERROR] line; in fallacy
    mode the same exception is wrapped like any other. *)
Lemma json_error_while_loading (mode : Mode) :
  let run :=
    main json_loads unbound_response_message mode "Hallo" "qwen2.5-7b" None
         (fun _ => RaisedJSONDecodeError "Expecting value") (fun _ => None) in
  stdout run = None /\ exit_code run = 1%Z /\
  stderr run =
    match mode with
    | emotion =>
        [LogMode "emotion"; LogModel "mlx-community/Qwen2.5-7B-Instruct-4bit";
         LogTextLength 5; ErrorFailedToParse "Expecting value";
         ErrorJson unbound_response_message "emotion" "qwen2.5-7b"]
    | fallacy =>
        [LogMode "fallacy"; LogModel "mlx-community/Qwen2.5-7B-Instruct-4bit";
         LogTextLength 5;
         ErrorJson "Fallacy analysis failed: Expecting value" "fallacy" "qwen2.5-7b"]
    end.
Proof. destruct mode; repeat split. Qed.

End AnalyzeProperties.

Section AnalyzeRuns.

Import MlxAnalyze Spec AnalyzeScript.

(** The end-to-end example: prose, an emotion object, prose. *)
Lemma analyze_emotion_returns_first_object_witness :
  let record :=
    [("primary", JString "frustration"); ("confidence", JFloat 0.87)] in
  let json_loads := fun _ : string => @inr string dict record in
  analyze_emotion json_loads
    (dq "Here: {'primary': 'frustration', 'confidence': 0.87} Hope that helps!")
  = inr record.
Proof.
  assert (Hbody : balanced (dq "'primary': 'frustration', 'confidence': 0.87")).
  { cbn. skip_plain_chars. apply balanced_empty. }
  exact (analyze_emotion_returns_first_object
           (fun _ => inr [("primary", JString "frustration"); ("confidence", JFloat 0.87)])
           "Here: " (dq "'primary': 'frustration', 'confidence': 0.87")
           " Hope that helps!"
           [("primary", JString "frustration"); ("confidence", JFloat 0.87)]
           eq_refl Hbody eq_refl eq_refl eq_refl).
Defined.

(** A second object after the first changes nothing. *)
Lemma analysis_ignores_text_after_object_witness :
  let json_loads := fun s : string => @inl string dict s in
  analyze_emotion json_loads (dq "{'a': {}} {'primary': 1}")
    = analyze_emotion json_loads (dq "{'a': {}}") /\
  analyze_fallacy json_loads (dq "{'a': {}} {'primary': 1}")
    = analyze_fallacy json_loads (dq "{'a': {}}").
Proof.
  assert (Hbody : balanced (dq "'a': {}")).
  { change (dq "'a': {}") with (dq "'a': " ++ String open_brace ("" ++ String close_brace "")).
    cbn. skip_plain_chars. apply (balanced_nest "" ""); apply balanced_empty. }
  exact (analysis_ignores_text_after_object (fun s => inl s)
           "" (dq "'a': {}") (dq " {'primary': 1}") "" eq_refl Hbody).
Defined.

End AnalyzeRuns.

(** *** The rest of the transcription script *)

Section TranscribeProperties.

Import MlxTranscribe Spec TranscribeScript.

(** X6.  A WAV file whose duration cannot be read does not fail the
    transcription: the run still prints its output and exits with status
    0, both durations are 0.0, and standard error carries a warning about
    the duration and no error line. *)
Theorem unreadable_duration_is_not_fatal (args_language : option string)
    (msg : string) (result : STTResult) :
  exists out,
    stdout (main args_language (inl msg) (inr result)) = Some out /\
    exit_code (main args_language (inl msg) (inr result)) = 0%Z /\
    speech_duration_sec out = 0.0%float /\
    total_duration_sec out = 0.0%float /\
    out_language out = str_or (language result) (str_or args_language "de") /\
    existsb is_duration_warning (stderr (main args_language (inl msg) (inr result))) = true /\
    forallb (fun l => negb (is_error_line l))
            (stderr (main args_language (inl msg) (inr result))) = true.
Proof.
  cbn [main]. rewrite emit_stdout, emit_stderr, emit_exit_code.
  eexists. split; [reflexivity|]. cbn [speech_duration_sec total_duration_sec out_language].
  repeat split; destruct (suppressed result); reflexivity.
Qed.

(** X7.  Every output the script prints reports the same number as speech
    duration and as total duration. *)
Theorem speech_duration_is_total_duration (args_language : option string)
    (wave : string + float) (transcribed : string + STTResult) (out : Output) :
  stdout (main args_language wave transcribed) = Some out ->
  speech_duration_sec out = total_duration_sec out.
Proof.
  destruct transcribed as [msg|result]; cbn [main stdout]; [discriminate|].
  rewrite emit_stdout. intros H. injection H as <-. reflexivity.
Qed.

Lemma speech_duration_is_total_duration_witness :
  exists out,
    stdout (main None (inr 2.5%float)
              (inr {| text := "Hallo"; no_speech_prob := None; avg_logprob := None;
                      language := None; segments := None |})) = Some out /\
    speech_duration_sec out = total_duration_sec out.
Proof.
  eexists. split; [reflexivity|].
  exact (speech_duration_is_total_duration None (inr 2.5%float)
           (inr {| text := "Hallo"; no_speech_prob := None; avg_logprob := None;
                   language := None; segments := None |}) _ eq_refl).
Defined.

(** X8.  Signals the engine does not report count as 0.0.  A result
    without [no_speech_prob] is never suppressed, whatever its
    [avg_logprob]; a result without [avg_logprob] is suppressed exactly
    when its [no_speech_prob] exceeds 0.8. *)
Theorem missing_signals_default_to_zero (result : STTResult) :
  (no_speech_prob result = None -> suppressed result = false) /\
  (avg_logprob result = None ->
   suppressed result = float_gt (getattr (no_speech_prob result) 0.0%float) 0.8).
Proof.
  unfold suppressed, signals, is_hallucination. cbn [fst snd]. split; intros ->.
  - reflexivity.
  - cbn [getattr].
    replace (PrimFloat.ltb 0.0 (-0.8)) with false by reflexivity.
    now rewrite andb_false_r.
Qed.

(** X9.  Before the engine is loaded the script checks, in this order,
    the model name, the audio file and the model directory.  A model name
    other than [german-turbo] ends it in the argument parser with status
    2, whatever is on disk; a missing audio file and then a missing model
    directory end it with status 1 and one error object; the "Unknown
    model" error of [get_model_path] is never printed.  Otherwise the
    script goes on with the directory [whisper-large-v3-turbo-german-f16]
    under [--models-dir] when that is given, else under [MLX_WHISPER_DIR]
    when that is set and not empty, else under [mlx-whisper] in the home
    directory. *)
Theorem preflight_checks (cli : Cli) :
  let model_path := Join (base_dir cli) "whisper-large-v3-turbo-german-f16" in
  let audio := Given (audio_file cli) in
  (model cli <> "german-turbo" ->
   preflight cli = UsageExit (model cli) /\
   early_exit_code (preflight cli) = Some 2%Z) /\
  (model cli = "german-turbo" ->
   (path_exists cli audio = false ->
    preflight cli = ErrorExit ("Audio file not found: " ++ path_str cli audio)) /\
   (path_exists cli audio = true -> path_exists cli model_path = false ->
    preflight cli =
      ErrorExit ("Model not found: german-turbo at " ++ path_str cli model_path)) /\
   (path_exists cli audio = true -> path_exists cli model_path = true ->
    preflight cli = Proceed model_path)) /\
  (forall msg, preflight cli = ErrorExit msg ->
   early_exit_code (preflight cli) = Some 1%Z /\
   msg <> "Unknown model: " ++ model cli).
Proof.
  cbv zeta. unfold preflight, model_choices, get_model_path, base_dir, get_models_dir.
  cbn [MODEL_SUBDIRS map fst existsb AnalyzeScript.dict_get orb].
  destruct (String.eqb_spec (model cli) "german-turbo") as [->|Hm]; cbn [negb orb].
  - split; [intros H; now contradiction H|].
    split.
    + intros _. repeat split; intros Ha; rewrite Ha; cbn [negb]; [reflexivity| |];
        intros Hp; cbn; rewrite Hp; reflexivity.
    + intros msg. destruct (path_exists cli (Given (audio_file cli))); cbn [negb].
      * cbn. destruct (path_exists cli _); cbn [negb]; [discriminate|].
        intros H. injection H as <-. split; [reflexivity | discriminate].
      * intros H. injection H as <-. split; [reflexivity | discriminate].
  - split; [intros _; split; reflexivity|].
    split; [intros H; now contradiction Hm | discriminate].
Qed.

End TranscribeProperties.

(** *** The rest of the accuracy gate *)

Section AccuracyTable.

Import ValidateQuantized Spec ValidateQuantizedSpec.

Context {numpy : Numpy}.

(** X10.  The loop prints one row per sentence, a similarity or a
    failure; the similarities it collects for the mean are exactly those
    shown in the rows, in the same order, so compared and failed
    sentences add up to the corpus. *)
Theorem one_row_per_sentence (env : Env) (sentences : list string) :
  let similarities := fst (compare_sentences env sentences) in
  let rows := snd (compare_sentences env sentences) in
  List.length rows = List.length sentences /\
  similarities = flat_map row_similarity rows /\
  List.length similarities + List.length (filter is_failed_row rows)
    = List.length sentences.
Proof.
  cbv zeta. induction sentences as [|text rest (IHlen & IHsims & IHsum)];
    cbn [compare_sentences]; [repeat split|].
  destruct (compare_sentences env rest) as [sims rows]. cbn [fst snd] in *.
  destruct (compare_one env text) as [e|sim]; cbn [fst snd List.length flat_map
    row_similarity filter is_failed_row app]; repeat split; try congruence; lia.
Qed.

Lemma substring_0_length (n : nat) (s : string) :
  String.length (substring 0 n s) = Nat.min n (String.length s).
Proof.
  revert s. induction n as [|n IH]; intros [|c s]; cbn; try reflexivity.
  now rewrite IH.
Qed.

(** X11.  The sentence column never exceeds its width: a text of at most
    50 characters is shown as it is, a longer one as its first 47
    characters and three dots, 50 characters in all. *)
Theorem shorten_fits_column (text : string) :
  String.length (shorten text) <= TEXT_COLUMN_WIDTH /\
  (String.length text <= TEXT_COLUMN_WIDTH -> shorten text = text) /\
  (TEXT_COLUMN_WIDTH < String.length text ->
   shorten text = substring 0 47 text ++ "..." /\
   String.length (shorten text) = TEXT_COLUMN_WIDTH).
Proof.
  unfold shorten, TEXT_COLUMN_WIDTH.
  destruct (Nat.ltb_spec 50 (String.length text)) as [Hlong|Hshort].
  - rewrite string_app_length, substring_0_length. cbn [String.length Nat.sub].
    repeat split; intros; try reflexivity; lia.
  - repeat split; intros; try reflexivity; lia.
Qed.

Lemma py_min_in (xs : list float) : forall x, In (py_min x xs) (x :: xs).
Proof.
  unfold py_min. induction xs as [|y ys IH]; intros x; cbn [fold_left]; [now left|].
  destruct (IH (if PrimFloat.ltb y x then y else x)) as [H|H].
  - rewrite <- H. destruct (PrimFloat.ltb y x); [right; now left | now left].
  - right. now right.
Qed.

Lemma py_max_in (xs : list float) : forall x, In (py_max x xs) (x :: xs).
Proof.
  unfold py_max. induction xs as [|y ys IH]; intros x; cbn [fold_left]; [now left|].
  destruct (IH (if PrimFloat.ltb x y then y else x)) as [H|H].
  - rewrite <- H. destruct (PrimFloat.ltb x y); [right; now left | now left].
  - right. now right.
Qed.

(** X12.  When [validate_models] returns, the average is the mean of the
    collected similarities and the reported minimum and maximum are two
    of them. *)
Theorem reported_statistics (env : Env) (sentences : list string)
    (avg min_sim max_sim : float) :
  snd (validate_models_on env sentences) = inr (avg, min_sim, max_sim) ->
  let similarities := fst (compare_sentences env sentences) in
  avg = np_mean similarities /\ In min_sim similarities /\ In max_sim similarities.
Proof.
  intros H. cbv zeta. destruct (ready env) eqn:Hr.
  - rewrite (validate_models_on_ready _ _ Hr) in H. cbn [snd] in H.
    destruct (fst (compare_sentences env sentences)) as [|s ss]; [discriminate|].
    injection H as <- <- <-. repeat split; [apply py_min_in | apply py_max_in].
  - destruct (validate_models_on_not_ready _ sentences Hr) as [e He].
    rewrite He in H. discriminate.
Qed.

(** X13.  Nothing is compared unless both model files exist and the
    tokenizer and both sessions load: otherwise no row is printed and
    [validate_models] raises, a [FileNotFoundError] exactly when one of
    the two files is missing. *)
Theorem nothing_compared_unless_ready (env : Env) (sentences : list string) :
  ready env = false ->
  fst (validate_models_on env sentences) = [] /\
  exists e,
    snd (validate_models_on env sentences) = inl e /\
    is_file_not_found e = negb (fp32_exists env && int8_exists env).
Proof.
  unfold ready, validate_models_on. intros H.
  destruct (fp32_exists env); [|split; [|eexists; split]; reflexivity].
  destruct (int8_exists env); [|split; [|eexists; split]; reflexivity].
  destruct (tokenizer_load env); [split; [|eexists; split]; reflexivity|].
  destruct (fp32_load env); [split; [|eexists; split]; reflexivity|].
  destruct (int8_load env); [split; [|eexists; split]; reflexivity|].
  discriminate.
Qed.

End AccuracyTable.

Section AccuracyTableRuns.

Import ValidateQuantized Spec ValidateQuantizedSpec.

Lemma reported_statistics_witness :
  let env := env_zero_for "Was ist Stress?" in
  let similarities := fst (@compare_sentences NumpySeq env TEST_SENTENCES) in
  1.0%float = @np_mean NumpySeq similarities /\
  In 1.0%float similarities /\ In 1.0%float similarities.
Proof.
  exact (@reported_statistics NumpySeq (env_zero_for "Was ist Stress?")
           TEST_SENTENCES 1.0%float 1.0%float 1.0%float eq_refl).
Defined.

(** The quantized model file is missing. *)
Lemma nothing_compared_unless_ready_witness :
  let env :=
    {| fp32_exists := true; int8_exists := false;
       tokenizer_load := None; fp32_load := None; int8_load := None;
       embed_fp32 := fun _ => ret [3.0; 4.0]%float;
       embed_int8 := fun _ => ret [3.0; 4.0]%float |} in
  fst (@validate_models_on NumpySeq env TEST_SENTENCES) = [] /\
  exists e,
    snd (@validate_models_on NumpySeq env TEST_SENTENCES) = inl e /\
    is_file_not_found e = true.
Proof.
  exact (@nothing_compared_unless_ready NumpySeq
           {| fp32_exists := true; int8_exists := false;
              tokenizer_load := None; fp32_load := None; int8_load := None;
              embed_fp32 := fun _ => ret [3.0; 4.0]%float;
              embed_int8 := fun _ => ret [3.0; 4.0]%float |}
           TEST_SENTENCES eq_refl).
Defined.

End AccuracyTableRuns.

(** *** The quantization script *)

Section QuantizeProperties.

Import QuantizeOnnx.

Lemma write_same (path : string) (size_mb : float) (files : Files) :
  write path size_mb files path = Some size_mb.
Proof. unfold write. now rewrite String.eqb_refl. Qed.

Lemma write_other (path p : string) (size_mb : float) (files : Files) :
  p <> path -> write path size_mb files p = files p.
Proof. unfold write. intros H. apply String.eqb_neq in H. now rewrite H. Qed.

Lemma input_is_not_backup : INPUT_MODEL <> BACKUP_MODEL.
Proof. apply String.eqb_neq. reflexivity. Qed.

Lemma input_is_not_output : INPUT_MODEL <> OUTPUT_MODEL.
Proof. apply String.eqb_neq. reflexivity. Qed.

Lemma backup_is_not_output : BACKUP_MODEL <> OUTPUT_MODEL.
Proof. apply String.eqb_neq. reflexivity. Qed.

Lemma quantize_model_success (files : Files) (tools : Tools)
    (input_size output_size : float) :
  files INPUT_MODEL = Some input_size ->
  copy2 tools = None -> check_input tools = None ->
  quantize_dynamic tools = inr output_size -> check_output tools = None ->
  PrimFloat.eqb input_size 0 = false ->
  quantize_model files tools =
    (write OUTPUT_MODEL output_size (write BACKUP_MODEL input_size files),
     inr (input_size, output_size, ((1 - output_size / input_size) * 100)%float)).
Proof.
  intros Hin Hcopy Hci Hq Hco Hnz. unfold quantize_model.
  rewrite Hin, Hcopy, Hci. cbv zeta. unfold get_file_size_mb.
  rewrite (write_other _ _ _ _ input_is_not_backup), Hin.
  cbn [wrapping try_except ret].
  rewrite Hq, Hco, write_same. cbn [bind ret]. unfold float_div. rewrite Hnz.
  reflexivity.
Qed.

Lemma quantize_model_failure (files : Files) (tools : Tools) :
  all_steps_succeed files tools = false ->
  exists e, snd (quantize_model files tools) = inl e /\
            (files INPUT_MODEL = None <-> exists msg, e = FileNotFoundError msg).
Proof.
  unfold all_steps_succeed, quantize_model. intros H.
  destruct (files INPUT_MODEL) as [input_size|] eqn:Hin.
  2:{ eexists. split; [reflexivity|]. split; [eexists; reflexivity | reflexivity]. }
  assert (Hrt : forall msg, Some input_size = None <-> exists m, RuntimeError msg = FileNotFoundError m).
  { intros msg. split; [discriminate | intros [m Hm]; discriminate]. }
  destruct (copy2 tools); [eexists; split; [reflexivity | apply Hrt]|].
  cbv zeta. unfold get_file_size_mb.
  rewrite (write_other _ _ _ _ input_is_not_backup), Hin.
  destruct (check_input tools); cbn [wrapping try_except ret raise];
    [eexists; split; [reflexivity | apply Hrt]|].
  destruct (quantize_dynamic tools) as [e|output_size];
    [eexists; split; [reflexivity | apply Hrt]|].
  rewrite write_same.
  destruct (check_output tools); cbn [wrapping try_except ret raise bind];
    [eexists; split; [reflexivity | apply Hrt]|].
  unfold float_div. cbn in H. apply negb_false_iff in H. rewrite H.
  cbn [raise bind try_except]. eexists; split; [reflexivity | apply Hrt].
Qed.

(** X14.  The quantization script exits with 0 or with 2, never with 1.
    It exits with 0 exactly when the input model exists with a nonzero
    size and the backup copy, both model checks and the quantization all
    succeed; the hint about the input model is printed exactly when the
    input model does not exist. *)
Theorem quantize_exit_code (files : Files) (tools : Tools) :
  (fst (main files tools) = 0%Z \/ fst (main files tools) = 2%Z) /\
  (fst (main files tools) = 0%Z <-> all_steps_succeed files tools = true) /\
  (snd (main files tools) = true <-> files INPUT_MODEL = None).
Proof.
  unfold main. destruct (all_steps_succeed files tools) eqn:Hok.
  - unfold all_steps_succeed in Hok.
    destruct (files INPUT_MODEL) as [input_size|] eqn:Hin; [|discriminate].
    destruct (copy2 tools) eqn:Hcopy; [discriminate|].
    destruct (check_input tools) eqn:Hci; [discriminate|].
    destruct (quantize_dynamic tools) as [|output_size] eqn:Hq; [discriminate|].
    destruct (check_output tools) eqn:Hco; [discriminate|].
    apply negb_true_iff in Hok.
    rewrite (quantize_model_success _ _ _ _ Hin Hcopy Hci Hq Hco Hok). cbn.
    repeat split; try discriminate; auto.
  - destruct (quantize_model_failure _ _ Hok) as (e & -> & Hfile).
    destruct e; cbn; repeat split; try discriminate; auto;
      try (intros _; apply Hfile; eexists; reflexivity);
      try (intros H; apply Hfile in H; destruct H as [m Hm]; discriminate).
Qed.

(** X15.  After a successful run the backup holds a file of the input's
    size, the output holds the quantized model, every other path is as it
    was, and the result reports the two sizes and the reduction
    [(1 - quantized / original) * 100].  The two files written are the
    two the accuracy gate looks for. *)
Theorem quantize_success_files (files : Files) (tools : Tools) :
  all_steps_succeed files tools = true ->
  exists input_size output_size,
    files INPUT_MODEL = Some input_size /\
    quantize_dynamic tools = inr output_size /\
    snd (quantize_model files tools) =
      inr (input_size, output_size, ((1 - output_size / input_size) * 100)%float) /\
    let files' := fst (quantize_model files tools) in
    files' BACKUP_MODEL = Some input_size /\
    files' OUTPUT_MODEL = Some output_size /\
    (forall p, p <> BACKUP_MODEL -> p <> OUTPUT_MODEL -> files' p = files p) /\
    files' ValidateQuantized.FP32_MODEL <> None /\
    files' ValidateQuantized.INT8_MODEL <> None.
Proof.
  intros Hok. unfold all_steps_succeed in Hok.
  destruct (files INPUT_MODEL) as [input_size|] eqn:Hin; [|discriminate].
  destruct (copy2 tools) eqn:Hcopy; [discriminate|].
  destruct (check_input tools) eqn:Hci; [discriminate|].
  destruct (quantize_dynamic tools) as [|output_size] eqn:Hq; [discriminate|].
  destruct (check_output tools) eqn:Hco; [discriminate|].
  apply negb_true_iff in Hok.
  exists input_size, output_size.
  rewrite (quantize_model_success _ _ _ _ Hin Hcopy Hci Hq Hco Hok). cbn [fst snd].
  do 3 (split; [reflexivity|]). cbv zeta.
  split; [|split; [|split; [|split]]].
  - rewrite (write_other _ _ _ _ backup_is_not_output). apply write_same.
  - apply write_same.
  - intros p Hb Ho. now rewrite !write_other.
  - change ValidateQuantized.FP32_MODEL with BACKUP_MODEL.
    rewrite (write_other _ _ _ _ backup_is_not_output), write_same. discriminate.
  - change ValidateQuantized.INT8_MODEL with OUTPUT_MODEL.
    rewrite write_same. discriminate.
Qed.


End QuantizeProperties.

Section QuantizeRuns.

Import QuantizeOnnx.

(** A 470 MB input, quantized to 118 MB. *)
Lemma quantize_success_files_witness :
  let files : Files :=
    fun p => if String.eqb p INPUT_MODEL then Some 470.0%float else None in
  let tools :=
    {| copy2 := None; check_input := None;
       quantize_dynamic := inr 118.0%float; check_output := None |} in
  exists input_size output_size,
    files INPUT_MODEL = Some input_size /\
    quantize_dynamic tools = inr output_size /\
    snd (quantize_model files tools) =
      inr (input_size, output_size, ((1 - output_size / input_size) * 100)%float) /\
    let files' := fst (quantize_model files tools) in
    files' BACKUP_MODEL = Some input_size /\
    files' OUTPUT_MODEL = Some output_size /\
    (forall p, p <> BACKUP_MODEL -> p <> OUTPUT_MODEL -> files' p = files p) /\
    files' ValidateQuantized.FP32_MODEL <> None /\
    files' ValidateQuantized.INT8_MODEL <> None.
Proof.
  exact (quantize_success_files
           (fun p => if String.eqb p INPUT_MODEL then Some 470.0%float else None)
           {| copy2 := None; check_input := None;
              quantize_dynamic := inr 118.0%float; check_output := None |}
           eq_refl).
Defined.

End QuantizeRuns.

(** *** The development server *)

Section ServerProperties.

Import ServerDev.

Variable tmp_path : string.
Variable mlx_script : string.
Variable run : list string -> Completed.
Variable json_loads : string -> string + json.
Variable tmp_exists_at_end : bool.

(** X16.  A request without an audio file, or with a file whose extension
    is not one of the four allowed, is answered with status 400 and
    touches nothing: no file is saved and the transcription script is not
    started.  Every other request saves the upload under its own
    extension, starts the script once with the seven-word command line
    that carries the model and the language (defaults [german-turbo] and
    [de]), and ends, whatever the script did, with the removal of the
    temporary file if it is still there. *)
Theorem transcribe_effects (request : Request) :
  (accepted request = false ->
   fst (transcribe tmp_path mlx_script run json_loads tmp_exists_at_end request) = [] /\
   exists b, snd (transcribe tmp_path mlx_script run json_loads tmp_exists_at_end request) = Respond b 400) /\
  (accepted request = true ->
   in_set (ext request) ALLOWED_EXTENSIONS = true /\
   fst (transcribe tmp_path mlx_script run json_loads tmp_exists_at_end request) =
     (SaveUpload (ext request)
      :: RunTranscribe
           ["python3"; mlx_script; tmp_path;
            "--model"; form_get (form_model request) "german-turbo";
            "--language"; form_get (form_language request) "de"]
      :: (if tmp_exists_at_end then [Unlink] else []))%list).
Proof.
  unfold accepted, transcribe.
  destruct (has_audio request); cbn [negb andb].
  - destruct (in_set (ext request) ALLOWED_EXTENSIONS); cbn [negb]; split;
      try discriminate; intros _.
    + split; reflexivity.
    + split; [reflexivity | eexists; reflexivity].
  - split; [|discriminate]. intros _. split; [reflexivity | eexists; reflexivity].
Qed.

(** X17.  The status of the answer follows the child process: 200 with
    the parsed output exactly when the request is accepted, the script
    returns 0 and its standard output parses; 500 with the script's
    standard error as the message when it returns anything else; 504 when
    it runs into the timeout. *)
Theorem transcribe_status (request : Request) :
  accepted request = true ->
  let argv :=
    ["python3"; mlx_script; tmp_path;
     "--model"; form_get (form_model request) "german-turbo";
     "--language"; form_get (form_language request) "de"] in
  (forall output,
     snd (transcribe tmp_path mlx_script run json_loads tmp_exists_at_end request) = Respond (OutputBody output) 200 <->
     exists stdout stderr,
       run argv = Returned 0 stdout stderr /\ json_loads stdout = inr output) /\
  (forall returncode stdout stderr,
     run argv = Returned returncode stdout stderr -> returncode <> 0%Z ->
     snd (transcribe tmp_path mlx_script run json_loads tmp_exists_at_end request) = Respond (ErrorBody stderr) 500) /\
  (run argv = TimeoutExpired ->
   exists b, snd (transcribe tmp_path mlx_script run json_loads tmp_exists_at_end request) = Respond b 504).
Proof.
  unfold accepted, transcribe. intros Hacc.
  apply andb_true_iff in Hacc as [-> ->]. cbn [negb snd]. cbv zeta.
  split; [|split].
  - intros output. split.
    + destruct (run _) as [|returncode stdout stderr|msg] eqn:Hrun; try discriminate.
      destruct (Z.eqb_spec returncode 0) as [->|Hrc]; cbn [negb]; [|discriminate].
      destruct (json_loads stdout) as [msg|output'] eqn:Hparse; [discriminate|].
      intros H. injection H as <-. now exists stdout, stderr.
    + intros (stdout & stderr & -> & Hparse). cbn. now rewrite Hparse.
  - intros returncode stdout stderr -> Hrc.
    destruct (Z.eqb_spec returncode 0) as [->|_]; [contradiction | reflexivity].
  - intros ->. eexists; reflexivity.
Qed.

End ServerProperties.

Section ServerRuns.

Import ServerDev.

(** An upload [clip.WAV], extension [.wav] once lowered, no form fields,
    and a child that fails with status 1. *)
Lemma transcribe_status_witness :
  let request :=
    {| has_audio := true; ext := ".wav"; form_model := None; form_language := None |} in
  let run := fun _ : list string => Returned 1 "" "{'error': 'Model not found'}" in
  let json_loads := fun s : string => @inl string json s in
  accepted request = true /\
  snd (transcribe "/tmp/upload.wav" "scripts/mlx_transcribe.py" run json_loads true request)
    = Respond (ErrorBody "{'error': 'Model not found'}") 500.
Proof.
  cbv zeta. split; [reflexivity|].
  exact (proj1 (proj2 (transcribe_status "/tmp/upload.wav" "scripts/mlx_transcribe.py"
           (fun _ => Returned 1 "" "{'error': 'Model not found'}")
           (fun s => inl s) true
           {| has_audio := true; ext := ".wav"; form_model := None;
              form_language := None |} eq_refl))
         1%Z "" "{'error': 'Model not found'}" eq_refl ltac:(discriminate)).
Defined.

End ServerRuns.

(** *** More on the scan and on accepted transcriptions *)

Module SpanFacts.

Import MlxAnalyze Spec ExtractFacts.

Lemma prefix_slice (k : nat) (s : string) : s = prefix_of k s ++ slice_from k s.
Proof.
  revert s. induction k as [|k IH]; intros s.
  - now rewrite prefix_of_0.
  - destruct s as [|c s]; [reflexivity|].
    rewrite prefix_of_cons. cbn [slice_from append]. now rewrite <- IH.
Qed.

Lemma prefix_of_length (k : nat) (s : string) :
  k <= String.length s -> String.length (prefix_of k s) = k.
Proof.
  revert s. induction k as [|k IH]; intros s Hk.
  - now rewrite prefix_of_0.
  - destruct s as [|c s]; cbn [String.length] in Hk; [lia|].
    rewrite prefix_of_cons. cbn [String.length]. rewrite IH; lia.
Qed.

Lemma prefix_of_prefix (j : nat) :
  forall k s, j <= k -> prefix_of j (prefix_of k s) = prefix_of j s.
Proof.
  induction j as [|j IH]; intros k s Hjk.
  - now rewrite !prefix_of_0.
  - destruct k as [|k]; [lia|]. destruct s as [|c s]; [reflexivity|].
    rewrite !prefix_of_cons. rewrite IH by lia. reflexivity.
Qed.

(** When the loop leaves by [break], it does so at the first place where
    the count comes back to zero. *)
Lemma scan_braces_break (rest : string) :
  forall i d je,
    (1 <= d)%Z -> je <= i ->
    scan_braces rest i d je <> je ->
    exists k,
      scan_braces rest i d je = i + k /\
      1 <= k <= String.length rest /\
      (d + brace_depth (prefix_of k rest))%Z = 0%Z /\
      forall j, 1 <= j < k -> (d + brace_depth (prefix_of j rest))%Z <> 0%Z.
Proof.
  induction rest as [|c rest IH]; intros i d je Hd Hle Hne; cbn [scan_braces] in *.
  - contradiction.
  - assert (Hstep : forall d',
              (1 <= d')%Z -> d' = (d + brace_delta c)%Z ->
              scan_braces rest (S i) d' je <> je ->
              exists k,
                scan_braces rest (S i) d' je = i + k /\
                1 <= k <= String.length (String c rest) /\
                (d + brace_depth (prefix_of k (String c rest)))%Z = 0%Z /\
                forall j, 1 <= j < k ->
                          (d + brace_depth (prefix_of j (String c rest)))%Z <> 0%Z).
    { intros d' Hd' Ed' Hne'.
      destruct (IH (S i) d' je Hd' ltac:(lia) Hne') as (k & Hk & Hrange & Hzero & Hfirst).
      exists (S k). cbn [String.length]. rewrite prefix_of_cons. cbn [brace_depth].
      fold (brace_delta c). repeat split; try lia.
      intros [|j] Hj; [lia|]. rewrite prefix_of_cons. cbn [brace_depth].
      fold (brace_delta c). destruct j as [|j].
      - rewrite prefix_of_0. cbn [brace_depth]. lia.
      - specialize (Hfirst (S j) ltac:(lia)). lia. }
    unfold brace_delta in Hstep.
    destruct (Ascii.eqb c open_brace) eqn:Eo.
    + apply (Hstep (d + 1)%Z); [lia | reflexivity | exact Hne].
    + destruct (Ascii.eqb c close_brace) eqn:Ec.
      * cbv zeta in Hne |- *. destruct (Z.eqb_spec (d - 1) 0) as [E|E].
        -- exists 1. cbn [String.length]. rewrite prefix_of_cons, prefix_of_0.
           cbn [brace_depth]. rewrite Eo, Ec. repeat split; try lia.
        -- apply (Hstep (d - 1)%Z); [lia | lia | exact Hne].
      * apply (Hstep d); [lia | lia | exact Hne].
Qed.

End SpanFacts.

Section SpanProperties.

Import MlxAnalyze Spec ExtractFacts SpanFacts.

(** X18.  Whatever the text, a span the scan returns starts at the first
    opening brace and is balanced: the extracted text begins with an
    opening brace, its braces add up to zero, and no shorter nonempty
    prefix of it does, so it ends at the first place where the count
    returns to zero. *)
Theorem extracted_span_is_first_balanced (text : string) (sp : ExtractedSpan) :
  extract_first_json_object text = inr sp ->
  exists pre body post,
    text = pre ++ String open_brace body ++ post /\
    contains_char open_brace pre = false /\
    json_start sp = String.length pre /\
    json_end sp = String.length pre + S (String.length body) /\
    json_str text sp = String open_brace body /\
    brace_depth (String open_brace body) = 0%Z /\
    forall j, 1 <= j <= String.length body ->
              brace_depth (prefix_of j (String open_brace body)) <> 0%Z.
Proof.
  intros H.
  destruct (str_index open_brace text) as [start|] eqn:Hi.
  2:{ apply str_index_none in Hi. unfold extract_first_json_object in H.
      rewrite Hi in H. discriminate. }
  destruct (str_index_split _ _ _ Hi) as (pre & rest & -> & Hpre & Hlen).
  rewrite (extract_at_first_brace _ _ Hpre) in H. cbv zeta in H. rewrite Hlen in H.
  destruct (scan_braces rest (S start) 1 start <=? start)%nat eqn:Hle; [discriminate|].
  injection H as <-. cbn [json_start json_end].
  assert (Hne : scan_braces rest (S start) 1 start <> start).
  { intros E. rewrite E, Nat.leb_refl in Hle. discriminate. }
  destruct (scan_braces_break rest (S start) 1 start ltac:(lia) ltac:(lia) Hne)
    as (k & Hk & Hrange & Hzero & Hfirst).
  exists pre, (prefix_of k rest), (slice_from k rest).
  rewrite Hk, (prefix_of_length k rest) by lia.
  split; [cbn [append]; now rewrite <- prefix_slice|].
  split; [exact Hpre|]. split; [now rewrite Hlen|]. split; [lia|].
  split; [|split].
  - unfold json_str, slice. cbn [json_start json_end].
    replace (S start + k - start) with (String.length (String open_brace (prefix_of k rest)))
      by (cbn [String.length]; rewrite prefix_of_length; lia).
    rewrite <- Hlen.
    replace (pre ++ String open_brace rest)
      with (pre ++ String open_brace (prefix_of k rest) ++ slice_from k rest)
      by (cbn [append]; now rewrite <- prefix_slice).
    apply substring_app_exact.
  - cbn [brace_depth]. rewrite Ascii.eqb_refl. exact Hzero.
  - intros [|j] Hj; [lia|]. rewrite prefix_of_cons. cbn [brace_depth].
    rewrite Ascii.eqb_refl. destruct j as [|j].
    + rewrite prefix_of_0. discriminate.
    + rewrite prefix_of_prefix by lia. apply Hfirst. lia.
Qed.

Lemma extracted_span_is_first_balanced_witness :
  let text := dq "ok {'a': '}'} {'b': 2}" in
  exists pre body post,
    text = pre ++ String open_brace body ++ post /\
    contains_char open_brace pre = false /\
    json_start (mkSpan 3 11) = String.length pre /\
    json_end (mkSpan 3 11) = String.length pre + S (String.length body) /\
    json_str text (mkSpan 3 11) = String open_brace body /\
    brace_depth (String open_brace body) = 0%Z /\
    forall j, 1 <= j <= String.length body ->
              brace_depth (prefix_of j (String open_brace body)) <> 0%Z.
Proof.
  exact (extracted_span_is_first_balanced (dq "ok {'a': '}'} {'b': 2}") (mkSpan 3 11)
           eq_refl).
Defined.

End SpanProperties.

Section AcceptedRuns.

Import MlxTranscribe Spec.

(** X19.  When the gate does not fire, the text of the result is printed
    as it is and every segment of the result becomes one printed segment,
    in order, a missing start or end shown as 0.0 and a missing text as
    the empty string. *)
Theorem accepted_run_prints_text_and_segments (args_language : option string)
    (wave : string + float) (result : STTResult) (segs : list Segment) :
  suppressed result = false ->
  segments result = Some segs ->
  exists out,
    stdout (main args_language wave (inr result)) = Some out /\
    out_text out = text result /\
    List.length (out_segments out) = List.length segs /\
    forall i seg,
      nth_error segs i = Some seg ->
      nth_error (out_segments out) i =
        Some {| out_start := getattr (seg_start seg) 0.0%float;
                out_end := getattr (seg_end seg) 0.0%float;
                out_seg_text := getattr (seg_text seg) "" |}.
Proof.
  intros Hs Hsegs. cbn [main]. rewrite emit_stdout, Hs, Hsegs.
  eexists. split; [reflexivity|]. cbn [out_text out_segments].
  split; [reflexivity|]. split; [apply length_map|].
  intros i seg Hnth. now rewrite nth_error_map, Hnth.
Qed.

Lemma accepted_run_prints_text_and_segments_witness :
  let segs := [ {| seg_start := Some 0.5%float; seg_end := None; seg_text := None |} ] in
  let result :=
    {| text := "Guten Tag"; no_speech_prob := Some 0.1%float;
       avg_logprob := Some (-0.2)%float; language := Some "de";
       segments := Some segs |} in
  suppressed result = false /\
  exists out,
    stdout (main None (inr 1.0%float) (inr result)) = Some out /\
    out_text out = "Guten Tag" /\
    List.length (out_segments out) = 1 /\
    forall i seg,
      nth_error segs i = Some seg ->
      nth_error (out_segments out) i =
        Some {| out_start := getattr (seg_start seg) 0.0%float;
                out_end := getattr (seg_end seg) 0.0%float;
                out_seg_text := getattr (seg_text seg) "" |}.
Proof.
  cbv zeta. split; [reflexivity|].
  exact (accepted_run_prints_text_and_segments None (inr 1.0%float)
           {| text := "Guten Tag"; no_speech_prob := Some 0.1%float;
              avg_logprob := Some (-0.2)%float; language := Some "de";
              segments := Some [ {| seg_start := Some 0.5%float; seg_end := None;
                                    seg_text := None |} ] |}
           [ {| seg_start := Some 0.5%float; seg_end := None; seg_text := None |} ]
           eq_refl eq_refl).
Defined.

End AcceptedRuns.
